(** * googmodule: CommonJS to goog.module conversion

    A shallow embedding of [src/googmodule.ts]: the syntax tree as far as the
    converter inspects it, the statement classifiers, the per-file rewrite with
    its binding table and counter, the header synthesis and the substitution
    hook that strips [.default] from goog: imports. *)

From stdpp Require Import base option list strings gmap pretty.

Set Warnings "-register-all".

Local Open Scope string_scope.
Local Open Scope list_scope.

(** ** Syntax tree *)

(** Declarations reached from an identifier, either through [original] links or
    through its symbol. [moduleSpecifier] is the [text] of the specifier:
    [None] when the declaration has no specifier (an export without [from]) or
    the specifier carries no text. *)
Inductive NodeKind : Type :=
  | ImportDeclaration (moduleSpecifier : option string)
  | ExportDeclaration (moduleSpecifier : option string)
  | OtherKind (tag : nat).

Inductive Node : Type :=
  MkNode { nodeKind : NodeKind; parent : option Node; nodeOriginal : option Node }.

Record Symbol : Type := MkSymbol { declarations : option (list Node) }.

Record Identifier : Type := MkIdentifier { text : string; original : option Node }.

Inductive BinaryOperator : Type :=
  | EqualsToken
  | BarBarToken
  | OtherToken (tag : nat).

Inductive PropertyName : Type :=
  | NameIdentifier (id : Identifier)
  | OtherName (tag : nat).

(** Expressions. [OtherExpression] stands for every kind the converter has no
    case for; [expression] and [arguments] are its properties of these names
    when the kind has them (a [new] expression has both, a parenthesized
    expression only the first). *)
Inductive Expression : Type :=
  | EIdentifier (id : Identifier)
  | StringLiteral (text : string) (singleQuote : bool)
  | CallExpression (expression : Expression) (arguments : list Expression)
  | PropertyAccessExpression (expression : Expression) (name : Identifier)
  | BinaryExpression (left : Expression) (operatorToken : BinaryOperator)
      (right : Expression)
  | ObjectLiteralExpression (properties : list ObjectLiteralElement)
  | TrueKeyword
  | OtherExpression (tag : nat) (expression : option Expression)
      (arguments : option (list Expression))
with ObjectLiteralElement : Type :=
  | PropertyAssignment (name : PropertyName) (initializer : Expression)
  | OtherElement (tag : nat).

Inductive BindingName : Type :=
  | BindingIdentifier (id : Identifier)
  | BindingPattern (tag : nat).

Record VariableDeclaration : Type :=
  MkVariableDeclaration { declName : BindingName; declInitializer : option Expression }.

(** Statements. Of a variable statement only the declarations are kept; the
    converter looks at nothing else of it. *)
Inductive StatementKind : Type :=
  | ExpressionStatement (expression : Expression)
  | VariableStatement (declarations : list VariableDeclaration)
  | NotEmittedStatement
  | OtherStatement (tag : nat).

(** A statement with the link left by [ts.setOriginalNode]. The text range set
    by [ts.setTextRange] is always copied from the same node and is not kept
    apart. *)
Inductive Statement : Type :=
  MkStatement { kind : StatementKind; stmtOriginal : option Statement }.

Record SourceFile : Type :=
  MkSourceFile { fileName : string; statements : list Statement }.

(** ** Identifier text *)

Definition escapeLeadingUnderscores (s : string) : string :=
  if String.prefix "__" s then "_" +:+ s else s.

Definition escapedText (id : Identifier) : string :=
  escapeLeadingUnderscores (text id).

Definition createIdentifier (s : string) : Identifier :=
  {| text := s; original := None |}.

Definition createSingleQuoteStringLiteral (s : string) : Expression :=
  StringLiteral s true.

(** The [text] of a node that has one. *)
Definition literalText (e : Expression) : string :=
  match e with
  | StringLiteral t _ => t
  | EIdentifier id => text id
  | _ => ""
  end.

(** ** Exceptions *)

Inductive Completion (A : Type) : Type :=
  | Normal (a : A)
  | TypeError.
Arguments Normal {A} a.
Arguments TypeError {A}.

(** Property reads on a node that may or may not have the property: [None] is
    [undefined]. *)
Definition getExpression (e : Expression) : option Expression :=
  match e with
  | CallExpression callee _ => Some callee
  | PropertyAccessExpression base _ => Some base
  | OtherExpression _ child _ => child
  | _ => None
  end.

Definition getArguments (e : Expression) : option (list Expression) :=
  match e with
  | CallExpression _ args => Some args
  | OtherExpression _ _ args => args
  | _ => None
  end.

(** ** Classifiers *)

Definition isPropertyAccess (node : Expression) (parent child : string) : bool :=
  match node with
  | PropertyAccessExpression (EIdentifier base) name =>
      String.eqb (escapedText base) parent && String.eqb (escapedText name) child
  | _ => false
  end.

Definition isModuleExportsAssignment (expr : Expression) : bool :=
  match expr with
  | BinaryExpression lhs EqualsToken _ => isPropertyAccess lhs "module" "exports"
  | _ => false
  end.

Definition isExportsAssignment (expr : Expression) : bool :=
  match expr with
  | BinaryExpression (EIdentifier lhs) EqualsToken _ => String.eqb (text lhs) "exports"
  | _ => false
  end.

Definition isUseStrict (node : Statement) : bool :=
  match kind node with
  | ExpressionStatement (StringLiteral t _) => String.eqb t "use strict"
  | _ => false
  end.

Definition isEsModuleProperty (expr : Expression) : bool :=
  match expr with
  | CallExpression callee [exp; esM; val] =>
      isPropertyAccess callee "Object" "defineProperty" &&
      match exp, esM, val with
      | EIdentifier e, StringLiteral m _,
        ObjectLiteralExpression [PropertyAssignment (NameIdentifier ident) init] =>
          String.eqb (escapedText e) "exports" && String.eqb m "__esModule" &&
          String.eqb (text ident) "value" &&
          match init with TrueKeyword => true | _ => false end
      | _, _, _ => false
      end
  | _ => false
  end.

(** [extractRequire] reads [call.expression] and [call.arguments] without
    testing what [call] is; its one caller that passes an unchecked value is the
    export-star branch, so the argument is an arbitrary value here. *)
Definition extractRequire (call : option Expression) : Completion (option string) :=
  match call with
  | None => TypeError
  | Some c =>
      match getExpression c with
      | None => TypeError
      | Some (EIdentifier ident) =>
          if negb (String.eqb (escapedText ident) "require") then Normal None
          else
            match getArguments c with
            | None => TypeError
            | Some [StringLiteral t _] => Normal (Some t)
            | Some _ => Normal None
            end
      | Some _ => Normal None
      end
  end.

Definition createGoogCall (methodName : string) (literal : Expression) : Expression :=
  CallExpression
    (PropertyAccessExpression (EIdentifier (createIdentifier "goog"))
       (createIdentifier methodName))
    [literal].

Definition extractGoogNamespaceImport (tsImport : string) : option string :=
  if String.prefix "goog:" tsImport
  then Some (String.substring 5 (String.length tsImport - 5) tsImport)
  else None.

(** ** Host and manifest *)

Record GoogModuleProcessorHost : Type := MkHost {
  pathToModuleName : string -> string -> string;
  fileNameToModuleId : string -> string;
  isJsTranspilation : bool;
  es5Mode : bool;
  convertIndexImportShorthand : bool
}.

(** The calls the converter makes on the modules manifest. *)
Inductive ManifestCall : Type :=
  | AddModule (fileName : string) (moduleName : string)
  | AddReferencedModule (fileName : string) (moduleName : string).

(** ** Per-file state

    [stmts] is the output array, [manifest] the calls made so far on the
    manifest, oldest first. *)
Record State : Type := MkState {
  moduleVarCounter : nat;
  namespaceToModuleVarName : gmap string Identifier;
  stmts : list Statement;
  manifest : list ManifestCall
}.

(** Computations over the state that may throw; the state reached at the throw
    is kept, since the manifest outlives the conversion of the file. *)
Definition M (A : Type) : Type := State -> Completion A * State.

Definition ret {A : Type} (a : A) : M A := fun st => (Normal a, st).

Definition bind {A B : Type} (m : M A) (f : A -> M B) : M B :=
  fun st =>
    match m st with
    | (Normal a, st') => f a st'
    | (TypeError, st') => (TypeError, st')
    end.

Definition lift {A : Type} (c : Completion A) : M A := fun st => (c, st).

Notation "x <- m ;; k" := (bind m (fun x => k))
  (at level 100, m at next level, right associativity).
Notation "m ;;; k" := (bind m (fun _ => k))
  (at level 100, right associativity).

Definition push (s : Statement) : M unit :=
  fun st =>
    (Normal tt,
     {| moduleVarCounter := moduleVarCounter st;
        namespaceToModuleVarName := namespaceToModuleVarName st;
        stmts := stmts st ++ [s];
        manifest := manifest st |}).

Definition addReferencedModule (file ns : string) : M unit :=
  fun st =>
    (Normal tt,
     {| moduleVarCounter := moduleVarCounter st;
        namespaceToModuleVarName := namespaceToModuleVarName st;
        stmts := stmts st;
        manifest := manifest st ++ [AddReferencedModule file ns] |}).

Definition getModuleVar (ns : string) : M (option Identifier) :=
  fun st => (Normal (namespaceToModuleVarName st !! ns), st).

Definition setModuleVar (ns : string) (ident : Identifier) : M unit :=
  fun st =>
    (Normal tt,
     {| moduleVarCounter := moduleVarCounter st;
        namespaceToModuleVarName := <[ns := ident]> (namespaceToModuleVarName st);
        stmts := stmts st;
        manifest := manifest st |}).

Definition moduleVarName (n : nat) : string :=
  "tsickle_module_" +:+ pretty n +:+ "_".

Definition nextModuleVar : M string :=
  fun st =>
    (Normal (moduleVarName (moduleVarCounter st)),
     {| moduleVarCounter := S (moduleVarCounter st);
        namespaceToModuleVarName := namespaceToModuleVarName st;
        stmts := stmts st;
        manifest := manifest st |}).

Definition createStatement (e : Expression) : Statement :=
  {| kind := ExpressionStatement e; stmtOriginal := None |}.

Definition createNotEmittedStatement (original : Statement) : Statement :=
  {| kind := NotEmittedStatement; stmtOriginal := Some original |}.

Definition createAssignment (lhs rhs : Expression) : Expression :=
  BinaryExpression lhs EqualsToken rhs.

Definition createVariableStatement (decl : VariableDeclaration) : StatementKind :=
  VariableStatement [decl].

(** [ts.setOriginalNode (ts.setTextRange s original) original] *)
Definition withOriginal (k : StatementKind) (original : Statement) : Statement :=
  {| kind := k; stmtOriginal := Some original |}.

Definition rewriteModuleExportsAssignment (expr : Statement) : option Statement :=
  match kind expr with
  | ExpressionStatement (BinaryExpression lhs EqualsToken rhs) =>
      if isPropertyAccess lhs "module" "exports"
      then Some (withOriginal
                   (ExpressionStatement
                      (createAssignment (EIdentifier (createIdentifier "exports")) rhs))
                   expr)
      else None
  | _ => None
  end.

(** A string or [null] used as a condition. *)
Definition truthy (s : option string) : bool :=
  match s with
  | Some (String _ _) => true
  | _ => false
  end.

Section Converter.

Variable host : GoogModuleProcessorHost.

(** [resolveIndexShorthand] goes through the compiler's module resolution and
    the [path] library; it is taken as given. *)
Variable resolveIndexShorthand : string -> string -> string.

Definition importPathToGoogNamespace (file : SourceFile) (tsImport : string) : Expression :=
  let modName :=
    match extractGoogNamespaceImport tsImport with
    | Some nsImport => nsImport
    | None =>
        let tsImport' :=
          if convertIndexImportShorthand host
          then resolveIndexShorthand (fileName file) tsImport
          else tsImport in
        pathToModuleName host (fileName file) tsImport'
    end in
  createSingleQuoteStringLiteral modName.

Variable sf : SourceFile.

Definition maybeCreateGoogRequire (original : Statement) (call : option Expression)
    (newIdent : Identifier) : M (option Statement) :=
  importedUrl <- lift (extractRequire call) ;;
  match importedUrl with
  | None | Some "" => ret None
  | Some url =>
      let imp := importPathToGoogNamespace sf url in
      addReferencedModule (fileName sf) (literalText imp) ;;;
      ident <- getModuleVar (literalText imp) ;;
      initializer <-
        match ident with
        | None =>
            setModuleVar (literalText imp) newIdent ;;;
            ret (createGoogCall "require" imp)
        | Some bound => ret (EIdentifier bound)
        end ;;
      ret (Some (withOriginal
                   (createVariableStatement
                      (MkVariableDeclaration (BindingIdentifier newIdent)
                         (Some initializer)))
                   original))
  end.

Definition maybeRewriteRequireTslib (stmt : Statement) : Statement :=
  match kind stmt with
  | ExpressionStatement (CallExpression (EIdentifier callee) [StringLiteral t q]) =>
      if String.eqb (text callee) "require" && String.eqb t "tslib"
      then withOriginal (ExpressionStatement (createGoogCall "require" (StringLiteral t q))) stmt
      else stmt
  | _ => stmt
  end.

Definition isExportStarCallee (callee : Expression) : bool :=
  match callee with
  | EIdentifier c => String.eqb (text c) "__exportStar" || String.eqb (text c) "__export"
  | _ => false
  end.

Definition visitTopLevelStatement (node : Statement) : M unit :=
  match kind node with
  | ExpressionStatement expr =>
      if isUseStrict node || isEsModuleProperty expr
      then push (createNotEmittedStatement node)
      else
        match rewriteModuleExportsAssignment node with
        | Some modExports => push modExports
        | None =>
            match expr with
            | CallExpression callee args =>
                let isExportStar := isExportStarCallee callee in
                let callExpr := if isExportStar then head args else Some expr in
                name <- nextModuleVar ;;
                let ident := createIdentifier name in
                require <- maybeCreateGoogRequire node callExpr ident ;;
                match require with
                | None => push node
                | Some req =>
                    push req ;;;
                    if isExportStar
                    then
                      let second :=
                        match args with
                        | _ :: a1 :: _ => [a1]
                        | _ => []
                        end in
                      push (createStatement
                              (CallExpression callee (EIdentifier ident :: second)))
                    else ret tt
                end
            | _ => push node
            end
        end
  | VariableStatement [decl] =>
      match declName decl, declInitializer decl with
      | BindingIdentifier ident, Some (CallExpression callee args) =>
          require <- maybeCreateGoogRequire node (Some (CallExpression callee args)) ident ;;
          match require with
          | None => push node
          | Some req => push req
          end
      | _, _ => push node
      end
  | _ => push node
  end.

Fixpoint visitAll (nodes : list Statement) : M unit :=
  match nodes with
  | [] => ret tt
  | node :: rest => visitTopLevelStatement node ;;; visitAll rest
  end.

Definition hasExportsAssignment (s : Statement) : bool :=
  match kind s with
  | ExpressionStatement e => isModuleExportsAssignment e || isExportsAssignment e
  | _ => false
  end.

Definition headerStmts (moduleName : string) : list Statement :=
  let googModule :=
    createStatement (createGoogCall "module" (createSingleQuoteStringLiteral moduleName)) in
  let moduleId := fileNameToModuleId host (fileName sf) in
  let moduleVarInitializer :=
    BinaryExpression (EIdentifier (createIdentifier "module")) BarBarToken
      (ObjectLiteralExpression
         [PropertyAssignment (NameIdentifier (createIdentifier "id"))
            (createSingleQuoteStringLiteral moduleId)]) in
  let modAssign :=
    {| kind := createVariableStatement
                 (MkVariableDeclaration (BindingIdentifier (createIdentifier "module"))
                    (Some moduleVarInitializer));
       stmtOriginal := None |} in
  [googModule; modAssign] ++
  (if es5Mode host then []
   else
     [createStatement
        (createAssignment (EIdentifier (createIdentifier "module"))
           (EIdentifier (createIdentifier "module")))] ++
     (if existsb hasExportsAssignment (statements sf) then []
      else
        [createStatement
           (createAssignment (EIdentifier (createIdentifier "exports"))
              (ObjectLiteralExpression []))])).

Definition isNotEmitted (s : Statement) : bool :=
  match kind s with
  | NotEmittedStatement => true
  | _ => false
  end.

Definition insertionIdx (body : list Statement) : nat :=
  match body with
  | first :: _ => if isNotEmitted first then 1 else 0
  | [] => 0
  end.

(** [stmts.splice(idx, 0, ...items)] *)
Definition splice (body : list Statement) (idx : nat) (items : list Statement)
    : list Statement :=
  take idx body ++ items ++ drop idx body.

Definition updateSourceFileNode (body : list Statement) : SourceFile :=
  {| fileName := fileName sf; statements := body |}.

Definition initialState (calls : list ManifestCall) : State :=
  {| moduleVarCounter := 1;
     namespaceToModuleVarName := ∅;
     stmts := [];
     manifest := calls |}.

(** The transformer applied to [sf]: its completion and the calls it made on
    the manifest. *)
Definition commonJsToGoogmoduleTransformer : Completion SourceFile * list ManifestCall :=
  let moduleName := pathToModuleName host "" (fileName sf) in
  let registered := [AddModule (fileName sf) moduleName] in
  if isJsTranspilation host
  then (Normal (updateSourceFileNode (map maybeRewriteRequireTslib (statements sf))),
        registered)
  else
    match visitAll (statements sf) (initialState registered) with
    | (Normal _, st) =>
        (Normal (updateSourceFileNode
                   (splice (stmts st) (insertionIdx (stmts st)) (headerStmts moduleName))),
         manifest st)
    | (TypeError, st) => (TypeError, manifest st)
    end.

End Converter.

(** ** The substitution hook *)

Fixpoint getOriginalNode (n : Node) : Node :=
  match n with
  | MkNode _ _ (Some o) => getOriginalNode o
  | MkNode _ _ None => n
  end.

Definition isImportDeclaration (n : Node) : bool :=
  match nodeKind n with
  | ImportDeclaration _ => true
  | _ => false
  end.

Definition isExportDeclaration (n : Node) : bool :=
  match nodeKind n with
  | ExportDeclaration _ => true
  | _ => false
  end.

(** [(decl.moduleSpecifier as ts.StringLiteral).text] *)
Definition moduleSpecifierText (n : Node) : option string :=
  match nodeKind n with
  | ImportDeclaration spec => spec
  | ExportDeclaration spec => spec
  | OtherKind _ => None
  end.

Section SubstitutionHook.

(** The hook installed before this one, and the type checker's symbol table. *)
Variable previousOnSubstituteNode : nat -> Expression -> Expression.
Variable getSymbolAtLocation : Identifier -> option Symbol.

(** The import declaration found through the symbol of the identifier. *)
Definition declarationOfSymbol (ident : Identifier) : option Node :=
  match getSymbolAtLocation ident with
  | None => None
  | Some sym =>
      match declarations sym with
      | None | Some [] => None
      | Some (decl :: _) =>
          match parent decl with
          | Some p =>
              match parent p with
              | Some g => if isImportDeclaration g then Some g else None
              | None => None
              end
          | None => None
          end
      end
  end.

(** The declaration an identifier comes from: the original node when that is
    an import or export declaration, else what its symbol leads to. *)
Definition importExportDeclOf (lhs : Identifier) : option Node :=
  match getOriginalNode <$> original lhs with
  | Some orig =>
      if isImportDeclaration orig || isExportDeclaration orig then Some orig
      else declarationOfSymbol lhs
  | None => declarationOfSymbol lhs
  end.

Definition onSubstituteNode (hint : nat) (node : Expression) : Completion Expression :=
  let node := previousOnSubstituteNode hint node in
  match node with
  | PropertyAccessExpression (EIdentifier lhs) name =>
      if negb (String.eqb (text name) "default") then Normal node
      else
        match importExportDeclOf lhs with
        | None => Normal node
        | Some importExportDecl =>
            match moduleSpecifierText importExportDecl with
            | None => TypeError
            | Some spec =>
                if truthy (extractGoogNamespaceImport spec)
                then Normal (EIdentifier lhs)
                else Normal node
            end
        end
  | _ => Normal node
  end.

End SubstitutionHook.

(** ** Vocabulary of the statements about the converter *)

(** The call that [visitTopLevelStatement] hands to [maybeCreateGoogRequire]
    for a statement, when it gets that far: the statement's own call, the first
    argument of an export-star wrapper (possibly missing), or the initializer of
    a single declaration of a plain name. *)
Definition importCall (node : Statement) : option (option Expression) :=
  match kind node with
  | ExpressionStatement expr =>
      if isUseStrict node || isEsModuleProperty expr then None
      else
        match rewriteModuleExportsAssignment node with
        | Some _ => None
        | None =>
            match expr with
            | CallExpression callee args =>
                Some (if isExportStarCallee callee then head args else Some expr)
            | _ => None
            end
        end
  | VariableStatement [decl] =>
      match declName decl, declInitializer decl with
      | BindingIdentifier _, Some (CallExpression callee args) =>
          Some (Some (CallExpression callee args))
      | _, _ => None
      end
  | _ => None
  end.

(** The import URL of a statement that the converter treats as an import. *)
Definition importedUrl (node : Statement) : option string :=
  match importCall node with
  | Some call =>
      match extractRequire call with
      | Normal (Some (String c s)) => Some (String c s)
      | _ => None
      end
  | None => None
  end.

Section Vocabulary.

Variable host : GoogModuleProcessorHost.
Variable resolveIndexShorthand : string -> string -> string.
Variable sf : SourceFile.

(** The namespace a statement imports, if the converter treats it as an
    import. *)
Definition importedNamespace (node : Statement) : option string :=
  (fun url => literalText (importPathToGoogNamespace host resolveIndexShorthand sf url))
    <$> importedUrl node.


End Vocabulary.

(** The one statement emitted for a statement that is not an import. *)
Definition plainRewrite (node : Statement) : Statement :=
  match kind node with
  | ExpressionStatement expr =>
      if isUseStrict node || isEsModuleProperty expr then createNotEmittedStatement node
      else
        match rewriteModuleExportsAssignment node with
        | Some modExports => modExports
        | None => node
        end
  | _ => node
  end.

(** The identifier an import statement binds: the declared name, or else the
    next synthetic name. *)
Definition importIdent (node : Statement) (st : State) : Identifier :=
  match kind node with
  | VariableStatement [MkVariableDeclaration (BindingIdentifier ident) _] => ident
  | _ => createIdentifier (moduleVarName (moduleVarCounter st))
  end.

(** The second statement of a split export-star wrapper. *)
Definition starCall (node : Statement) (ident : Identifier) : list Statement :=
  match kind node with
  | ExpressionStatement (CallExpression callee args) =>
      if isExportStarCallee callee
      then [createStatement
              (CallExpression callee
                 (EIdentifier ident :: match args with
                                       | _ :: a1 :: _ => [a1]
                                       | _ => []
                                       end))]
      else []
  | _ => []
  end.

Definition counterAfter (node : Statement) (st : State) : nat :=
  match kind node with
  | ExpressionStatement _ => S (moduleVarCounter st)
  | _ => moduleVarCounter st
  end.

(** [var ident = goog.require('ns');] made for [node]. *)
Definition requireDeclaration (ident : Identifier) (ns : string) (node : Statement)
    : Statement :=
  withOriginal
    (VariableStatement
       [MkVariableDeclaration (BindingIdentifier ident)
          (Some (createGoogCall "require" (createSingleQuoteStringLiteral ns)))])
    node.

(** [var ident = bound;] made for [node]. *)
Definition aliasDeclaration (ident bound : Identifier) (node : Statement) : Statement :=
  withOriginal
    (VariableStatement
       [MkVariableDeclaration (BindingIdentifier ident) (Some (EIdentifier bound))])
    node.


Definition isAddModule (c : ManifestCall) : bool :=
  match c with
  | AddModule _ _ => true
  | AddReferencedModule _ _ => false
  end.




Section HookVocabulary.

Variable getSymbolAtLocation : Identifier -> option Symbol.

(** [ident] is traced to the declaration [decl]: through its original node when
    that is an import or export declaration, otherwise through the first
    declaration of its symbol, whose grandparent is then an import
    declaration. *)
Inductive TracedTo (ident : Identifier) (decl : Node) : Prop :=
  | traced_by_original (o : Node) :
      original ident = Some o ->
      getOriginalNode o = decl ->
      isImportDeclaration decl || isExportDeclaration decl = true ->
      TracedTo ident decl
  | traced_by_symbol (sym : Symbol) (d : Node) (rest : list Node) (p : Node) :
      (forall o, original ident = Some o ->
                 isImportDeclaration (getOriginalNode o)
                 || isExportDeclaration (getOriginalNode o) = false) ->
      getSymbolAtLocation ident = Some sym ->
      declarations sym = Some (d :: rest) ->
      parent d = Some p ->
      parent p = Some decl ->
      isImportDeclaration decl = true ->
      TracedTo ident decl.

(** The declaration's specifier begins with [goog:]. *)
Definition TracedToGoogPrefix (ident : Identifier) : Prop :=
  exists decl spec,
    TracedTo ident decl /\ moduleSpecifierText decl = Some spec /\
    String.prefix "goog:" spec = true.

(** The declaration's specifier is [goog:] followed by a non-empty namespace. *)
Definition TracedToGoogNamespace (ident : Identifier) : Prop :=
  exists decl ns,
    TracedTo ident decl /\ moduleSpecifierText decl = Some ("goog:" +:+ ns) /\
    ns <> "".

End HookVocabulary.

(** The number of placeholders at the front of a body. *)
Fixpoint leadingPlaceholders (body : list Statement) : nat :=
  match body with
  | s :: rest => if isNotEmitted s then S (leadingPlaceholders rest) else 0
  | [] => 0
  end.

(** ** Vocabulary of the further properties *)

(** A top-level call statement takes the next synthetic name, whatever it
    calls, unless it is the [__esModule] marker. *)
Definition takesModuleVar (node : Statement) : bool :=
  match kind node with
  | ExpressionStatement (CallExpression callee args) =>
      negb (isEsModuleProperty (CallExpression callee args))
  | _ => false
  end.

Section FurtherVocabulary.

Variable host : GoogModuleProcessorHost.
Variable resolveIndexShorthand : string -> string -> string.
Variable sf : SourceFile.

(** An export-star wrapper that the converter treats as an import and splits
    in two. *)
Definition isSplitWrapper (node : Statement) : bool :=
  match kind node, importedNamespace host resolveIndexShorthand sf node with
  | ExpressionStatement (CallExpression callee _), Some _ => isExportStarCallee callee
  | _, _ => false
  end.


End FurtherVocabulary.


(** ** The index shorthand

    [resolveIndexShorthand] with what it takes from outside as parameters:
    [resolveModuleName imported fileName] is the resolved file name of
    [ts.resolveModuleName], [None] when nothing is resolved; [pathRelative],
    [pathDirname] and [pathSep] are those of the [path] library. *)
Module IndexShorthand.

Definition slash : Ascii.ascii := Ascii.ascii_of_nat 47.

Definition endsWith (suffix s : string) : bool :=
  Nat.leb (String.length suffix) (String.length s) &&
  String.eqb
    (String.substring (String.length s - String.length suffix) (String.length suffix) s)
    suffix.

Definition dropEnd (n : nat) (s : string) : string :=
  String.substring 0 (String.length s - n) s.

(** [s.replace(TS_EXTENSIONS, '')]: the match that starts first wins, so
    [.d.ts] goes before [.ts]. *)
Definition stripTsExtension (s : string) : string :=
  if endsWith ".d.ts" s then dropEnd 5 s
  else if endsWith ".ts" s then dropEnd 3 s
  else if endsWith ".js" s then dropEnd 3 s
  else if endsWith ".jsx" s then dropEnd 4 s
  else if endsWith ".tsx" s then dropEnd 4 s
  else s.

(** [s.indexOf(pattern) !== -1] *)
Fixpoint includes (pattern s : string) : bool :=
  String.prefix pattern s ||
  match s with
  | "" => false
  | String _ rest => includes pattern rest
  end.

(** [s.lastIndexOf(c)], [-1] when [c] does not occur. *)
Fixpoint lastIndexOf (c : Ascii.ascii) (s : string) : Z :=
  match s with
  | "" => -1
  | String a rest =>
      let i := lastIndexOf c rest in
      if (0 <=? i)%Z then (i + 1)%Z else if Ascii.eqb a c then 0%Z else (-1)%Z
  end.

(** [s.substr(start)]: a negative [start] counts from the end. *)
Definition substr (start : Z) (s : string) : string :=
  let size := Z.of_nat (String.length s) in
  let from := Z.to_nat (if (start <? 0)%Z then Z.max (size + start) 0 else start) in
  String.substring from (String.length s - from) s.

(** [s.replace(pattern, '/')] for a string [pattern]: the first occurrence
    only. *)
Fixpoint replaceFirstBySlash (pattern s : string) : string :=
  if String.prefix pattern s
  then "/" +:+ String.substring (String.length pattern)
                 (String.length s - String.length pattern) s
  else match s with
       | "" => ""
       | String a rest => String a (replaceFirstBySlash pattern rest)
       end.

Section Resolve.

Variable resolveModuleName : string -> string -> option string.
Variable pathRelative : string -> string -> string.
Variable pathDirname : string -> string.
Variable pathSep : string.

Definition resolveIndexShorthand (fileName imported : string) : string :=
  match resolveModuleName imported fileName with
  | None => imported
  | Some resolvedFileName =>
      let requestedModule := stripTsExtension imported in
      let resolvedModule := stripTsExtension resolvedFileName in
      if negb (includes "node_modules" resolvedModule) &&
         negb (String.eqb (substr (lastIndexOf slash requestedModule) requestedModule)
                 (substr (lastIndexOf slash resolvedModule) resolvedModule))
      then "./" +:+ replaceFirstBySlash pathSep
                      (pathRelative (pathDirname fileName) resolvedModule)
      else imported
  end.

End Resolve.

End IndexShorthand.

(** ** Sample units *)

Module Samples.

Definition host (transpile es5 : bool) : GoogModuleProcessorHost :=
  {| pathToModuleName := fun _ importPath => importPath;
     fileNameToModuleId := fun f => f;
     isJsTranspilation := transpile;
     es5Mode := es5;
     convertIndexImportShorthand := false |}.

Definition resolve : string -> string -> string := fun _ imported => imported.

Definition ident (s : string) : Expression := EIdentifier (createIdentifier s).

Definition stmt (e : Expression) : Statement :=
  {| kind := ExpressionStatement e; stmtOriginal := None |}.

Definition require (url : string) : Expression :=
  CallExpression (ident "require") [StringLiteral url false].

Definition useStrict : Statement := stmt (StringLiteral "use strict" false).

Definition esModuleMarker : Statement :=
  stmt (CallExpression
          (PropertyAccessExpression (ident "Object") (createIdentifier "defineProperty"))
          [ident "exports"; StringLiteral "__esModule" false;
           ObjectLiteralExpression
             [PropertyAssignment (NameIdentifier (createIdentifier "value")) TrueKeyword]]).

Definition other : Statement := {| kind := OtherStatement 0; stmtOriginal := None |}.

Definition unit (body : list Statement) : SourceFile :=
  {| fileName := "f.ts"; statements := body |}.

Definition declare (name : string) (init : Expression) : Statement :=
  {| kind := VariableStatement
               [MkVariableDeclaration (BindingIdentifier (createIdentifier name)) (Some init)];
     stmtOriginal := None |}.

(** [__exportStar(require(url), exports);] *)
Definition exportStar (url : string) : Statement :=
  stmt (CallExpression (ident "__exportStar") [require url; ident "exports"]).

(** ["use strict";] and the [__esModule] marker, as the compiler emits them at
    the top of a CommonJS file, followed by some other statement. *)
Definition strictUnit : SourceFile := unit [useStrict; esModuleMarker; other].

Definition twice : SourceFile := unit [stmt (require "./a"); stmt (require "./a")].


Definition importOf (spec : string) : Node :=
  {| nodeKind := ImportDeclaration (Some spec); parent := None; nodeOriginal := None |}.

(** An identifier generated for the import of [spec]. *)
Definition imported (name spec : string) : Identifier :=
  {| text := name; original := Some (importOf spec) |}.

(** [name.default] on such an identifier. *)
Definition defaultAccess (name spec : string) : Expression :=
  PropertyAccessExpression (EIdentifier (imported name spec)) (createIdentifier "default").

(** [name.default] where [name] stands for an export declaration that has no
    [from] clause. *)
Definition defaultAccessOfLocalExport (name : string) : Expression :=
  PropertyAccessExpression
    (EIdentifier
       {| text := name;
          original := Some {| nodeKind := ExportDeclaration None; parent := None;
                              nodeOriginal := None |} |})
    (createIdentifier "default").

Definition noPreviousHook : nat -> Expression -> Expression := fun _ node => node.

Definition noSymbols : Identifier -> option Symbol := fun _ => None.

(** The three forms of import, each of the empty URL:
    [require('');], [var x = require('');] and [__export(require(''));]. *)
Definition emptyImports : SourceFile :=
  unit [stmt (require ""); declare "x" (require "");
        stmt (CallExpression (ident "__export") [require ""])].


End Samples.

(** * Properties *)

Ltac unfold_m :=
  unfold bind, ret, lift, push, addReferencedModule, getModuleVar, setModuleVar,
    nextModuleVar in *.

Section Properties.

Variable host : GoogModuleProcessorHost.
Variable resolveIndexShorthand : string -> string -> string.
Variable sf : SourceFile.

Local Abbreviation visit := (visitTopLevelStatement host resolveIndexShorthand sf).
Local Abbreviation visitAll' := (visitAll host resolveIndexShorthand sf).
Local Abbreviation namespaceOf := (importedNamespace host resolveIndexShorthand sf).
Local Abbreviation namespaceOfUrl :=
  (fun url => literalText (importPathToGoogNamespace host resolveIndexShorthand sf url)).

(** ** [maybeCreateGoogRequire], case by case *)

Lemma maybeCreateGoogRequire_throw original call newIdent st :
  extractRequire call = TypeError ->
  maybeCreateGoogRequire host resolveIndexShorthand sf original call newIdent st
  = (TypeError, st).
Proof. intros E. unfold maybeCreateGoogRequire. unfold_m. now rewrite E. Qed.

Lemma maybeCreateGoogRequire_none original call newIdent st :
  extractRequire call = Normal None \/ extractRequire call = Normal (Some "") ->
  maybeCreateGoogRequire host resolveIndexShorthand sf original call newIdent st
  = (Normal None, st).
Proof.
  intros [E | E]; unfold maybeCreateGoogRequire; unfold_m; now rewrite E.
Qed.

Lemma maybeCreateGoogRequire_some original call newIdent st c s :
  extractRequire call = Normal (Some (String c s)) ->
  let ns := namespaceOfUrl (String c s) in
  maybeCreateGoogRequire host resolveIndexShorthand sf original call newIdent st
  = match namespaceToModuleVarName st !! ns with
    | None =>
        (Normal (Some (requireDeclaration newIdent ns original)),
         {| moduleVarCounter := moduleVarCounter st;
            namespaceToModuleVarName := <[ns := newIdent]> (namespaceToModuleVarName st);
            stmts := stmts st;
            manifest := manifest st ++ [AddReferencedModule (fileName sf) ns] |})
    | Some bound =>
        (Normal (Some (aliasDeclaration newIdent bound original)),
         {| moduleVarCounter := moduleVarCounter st;
            namespaceToModuleVarName := namespaceToModuleVarName st;
            stmts := stmts st;
            manifest := manifest st ++ [AddReferencedModule (fileName sf) ns] |})
    end.
Proof.
  intros E ns. subst ns. unfold maybeCreateGoogRequire. unfold_m. rewrite E.
  cbn. destruct (namespaceToModuleVarName st !! _); reflexivity.
Qed.

(** ** One step of the visit *)

Lemma visit_not_import_site node st :
  importCall node = None ->
  visit node st
  = (Normal tt,
     {| moduleVarCounter := moduleVarCounter st;
        namespaceToModuleVarName := namespaceToModuleVarName st;
        stmts := stmts st ++ [plainRewrite node];
        manifest := manifest st |}).
Proof.
  unfold importCall, visitTopLevelStatement, plainRewrite.
  destruct node as [k o]; cbn [kind].
  destruct k as [expr | decls | | tag]; try reflexivity.
  - destruct (isUseStrict _ || isEsModuleProperty _); [reflexivity |].
    destruct (rewriteModuleExportsAssignment _); [reflexivity |].
    destruct expr; try reflexivity. discriminate.
  - destruct decls as [| decl [| ? ?]]; try reflexivity.
    destruct (declName decl); [| reflexivity].
    destruct (declInitializer decl) as [[] |]; try reflexivity. discriminate.
Qed.

Lemma visit_import_site node call st :
  importCall node = Some call ->
  visit node st
  = match maybeCreateGoogRequire host resolveIndexShorthand sf node call
            (importIdent node st)
            {| moduleVarCounter := counterAfter node st;
               namespaceToModuleVarName := namespaceToModuleVarName st;
               stmts := stmts st;
               manifest := manifest st |} with
    | (TypeError, st') => (TypeError, st')
    | (Normal None, st') =>
        (Normal tt,
         {| moduleVarCounter := moduleVarCounter st';
            namespaceToModuleVarName := namespaceToModuleVarName st';
            stmts := stmts st' ++ [node];
            manifest := manifest st' |})
    | (Normal (Some req), st') =>
        (Normal tt,
         {| moduleVarCounter := moduleVarCounter st';
            namespaceToModuleVarName := namespaceToModuleVarName st';
            stmts := stmts st' ++ req :: starCall node (importIdent node st);
            manifest := manifest st' |})
    end.
Proof.
  unfold importCall, visitTopLevelStatement, importIdent, starCall, counterAfter.
  destruct node as [k o]; cbn [kind].
  destruct k as [expr | decls | | tag]; try discriminate.
  - destruct (isUseStrict _ || isEsModuleProperty _); [discriminate |].
    destruct (rewriteModuleExportsAssignment _); [discriminate |].
    destruct expr; try discriminate.
    intros [= <-]. unfold_m.
    destruct (maybeCreateGoogRequire _ _ _ _ _ _ _) as [[[req |] |] st'];
      try reflexivity.
    destruct (isExportStarCallee _); cbn; rewrite <- ?app_assoc; reflexivity.
  - destruct decls as [| [name init] [| ? ?]]; try discriminate.
    cbn [declName declInitializer].
    destruct name; [| discriminate].
    destruct init as [[] |]; try discriminate.
    intros [= <-]. unfold_m. destruct st.
    cbn [moduleVarCounter namespaceToModuleVarName stmts manifest].
    destruct (maybeCreateGoogRequire _ _ _ _ _ _ _) as [[[req |] |] st'];
      reflexivity.
Qed.

Lemma plainRewrite_import_site node call :
  importCall node = Some call -> plainRewrite node = node.
Proof.
  unfold importCall, plainRewrite. destruct node as [k o]; cbn [kind].
  destruct k as [expr | decls | | tag]; try reflexivity.
  destruct (isUseStrict _ || isEsModuleProperty _); [discriminate |].
  destruct (rewriteModuleExportsAssignment _); [discriminate | reflexivity].
Qed.

Lemma visit_import node ns st :
  namespaceOf node = Some ns ->
  visit node st
  = (Normal tt,
     {| moduleVarCounter := counterAfter node st;
        namespaceToModuleVarName :=
          match namespaceToModuleVarName st !! ns with
          | None => <[ns := importIdent node st]> (namespaceToModuleVarName st)
          | Some _ => namespaceToModuleVarName st
          end;
        stmts :=
          stmts st ++
          match namespaceToModuleVarName st !! ns with
          | None => requireDeclaration (importIdent node st) ns node
          | Some bound => aliasDeclaration (importIdent node st) bound node
          end :: starCall node (importIdent node st);
        manifest := manifest st ++ [AddReferencedModule (fileName sf) ns] |}).
Proof.
  unfold importedNamespace, importedUrl.
  destruct (importCall node) as [call |] eqn:Hsite; [| discriminate].
  destruct (extractRequire call) as [[[| c s] |] |] eqn:E; try discriminate.
  cbn [fmap option_fmap option_map]. intros [= <-].
  rewrite (visit_import_site _ _ _ Hsite).
  rewrite (maybeCreateGoogRequire_some _ _ _ _ _ _ E). cbv zeta.
  cbn [moduleVarCounter namespaceToModuleVarName stmts manifest].
  destruct (namespaceToModuleVarName st !! _); reflexivity.
Qed.

Lemma visit_not_import node st :
  namespaceOf node = None ->
  (exists n,
      visit node st
      = (TypeError,
         {| moduleVarCounter := n;
            namespaceToModuleVarName := namespaceToModuleVarName st;
            stmts := stmts st;
            manifest := manifest st |})) \/
  (exists n,
      visit node st
      = (Normal tt,
         {| moduleVarCounter := n;
            namespaceToModuleVarName := namespaceToModuleVarName st;
            stmts := stmts st ++ [plainRewrite node];
            manifest := manifest st |})).
Proof.
  unfold importedNamespace, importedUrl.
  destruct (importCall node) as [call |] eqn:Hsite.
  - rewrite (visit_import_site _ _ _ Hsite), (plainRewrite_import_site _ _ Hsite).
    destruct (extractRequire call) as [[[| c s] |] |] eqn:E; try discriminate; intros _.
    + rewrite maybeCreateGoogRequire_none by auto. right. eexists. reflexivity.
    + rewrite maybeCreateGoogRequire_none by auto. right. eexists. reflexivity.
    + rewrite maybeCreateGoogRequire_throw by auto. left. eexists. reflexivity.
  - intros _. right. rewrite (visit_not_import_site _ _ Hsite). eexists. reflexivity.
Qed.

(** Every step only appends to the output and to the manifest. *)
Lemma visit_manifest node st :
  manifest (snd (visit node st))
  = manifest st ++
    match namespaceOf node with
    | Some ns => [AddReferencedModule (fileName sf) ns]
    | None => []
    end.
Proof.
  destruct (namespaceOf node) as [ns |] eqn:E.
  - now rewrite (visit_import _ _ _ E).
  - destruct (visit_not_import node st E) as [[n ->] | [n ->]];
      cbn; now rewrite app_nil_r.
Qed.

Lemma visitAll_cons node rest st :
  visitAll' (node :: rest) st
  = match visit node st with
    | (Normal _, st') => visitAll' rest st'
    | (TypeError, st') => (TypeError, st')
    end.
Proof. reflexivity. Qed.

Lemma visitAll_manifest nodes : forall st st',
  visitAll' nodes st = (Normal tt, st') ->
  manifest st'
  = manifest st ++ map (AddReferencedModule (fileName sf)) (omap namespaceOf nodes).
Proof.
  induction nodes as [| node rest IH]; intros st st'.
  - intros [= <-]. cbn. now rewrite app_nil_r.
  - rewrite visitAll_cons. pose proof (visit_manifest node st) as Hm.
    destruct (visit node st) as [[[] |] st1]; [| discriminate].
    intros Hrest. rewrite (IH _ _ Hrest). cbn [snd] in Hm. rewrite Hm.
    cbn [omap list_omap]. destruct (namespaceOf node); cbn; now rewrite <- app_assoc.
Qed.

Lemma visitAll_manifest_referenced nodes : forall st c st',
  visitAll' nodes st = (c, st') ->
  exists calls, manifest st' = manifest st ++ calls /\ Forall (fun call => isAddModule call = false) calls.
Proof.
  induction nodes as [| node rest IH]; intros st c st'.
  - intros [= <- <-]. exists []. split; [now rewrite app_nil_r | constructor].
  - rewrite visitAll_cons. pose proof (visit_manifest node st) as Hm.
    destruct (visit node st) as [[[] |] st1]; cbn [snd] in Hm.
    + intros Hrest. destruct (IH _ _ _ Hrest) as (calls & -> & Hall).
      rewrite Hm, <- app_assoc. eexists. split; [reflexivity |].
      apply Forall_app. split; [| exact Hall].
      destruct (namespaceOf node); repeat constructor.
    + intros [= <- <-]. rewrite Hm. eexists. split; [reflexivity |].
      destruct (namespaceOf node); repeat constructor.
Qed.

End Properties.


(** ** Exports assignments *)

(** C6: [module.exports = X;] is rewritten to [exports = X;] with [X] carried
    over as it is, for every expression [X]; a statement [exports = X;] is
    copied to the output unchanged. Nothing else of the state changes. *)
Theorem exports_assignment_rewrite host resolve sf st (X : Expression)
    (mo eo : option Node) (o : option Statement) :
  let moduleExports :=
    {| kind := ExpressionStatement
                 (BinaryExpression
                    (PropertyAccessExpression (EIdentifier (MkIdentifier "module" mo))
                       (MkIdentifier "exports" eo))
                    EqualsToken X);
       stmtOriginal := o |} in
  let bareExports :=
    {| kind := ExpressionStatement
                 (BinaryExpression (EIdentifier (MkIdentifier "exports" eo)) EqualsToken X);
       stmtOriginal := o |} in
  visitTopLevelStatement host resolve sf moduleExports st
  = (Normal tt,
     {| moduleVarCounter := moduleVarCounter st;
        namespaceToModuleVarName := namespaceToModuleVarName st;
        stmts := stmts st ++
                 [{| kind := ExpressionStatement
                               (BinaryExpression (EIdentifier (createIdentifier "exports"))
                                  EqualsToken X);
                     stmtOriginal := Some moduleExports |}];
        manifest := manifest st |}) /\
  visitTopLevelStatement host resolve sf bareExports st
  = (Normal tt,
     {| moduleVarCounter := moduleVarCounter st;
        namespaceToModuleVarName := namespaceToModuleVarName st;
        stmts := stmts st ++ [bareExports];
        manifest := manifest st |}).
Proof.
  intros moduleExports bareExports. split.
  - rewrite visit_not_import_site by reflexivity. reflexivity.
  - rewrite visit_not_import_site by reflexivity. reflexivity.
Qed.

(** ** Transpilation mode *)





(** ** Registration of the provided namespace *)

(** C10: in both modes, and also when the conversion throws, the first call on
    the manifest is [addModule (fileName, pathToModuleName ('', fileName))] and
    no later call is an [addModule]. *)
Theorem addModule_once_in_both_modes host resolve sf :
  exists rest,
    snd (commonJsToGoogmoduleTransformer host resolve sf)
    = AddModule (fileName sf) (pathToModuleName host "" (fileName sf)) :: rest /\
    Forall (fun call => isAddModule call = false) rest.
Proof.
  unfold commonJsToGoogmoduleTransformer.
  destruct (isJsTranspilation host).
  - exists []. split; [reflexivity | constructor].
  - destruct (visitAll host resolve sf (statements sf) _) as [c st] eqn:Hrun.
    apply visitAll_manifest_referenced in Hrun as (calls & Hm & Hall).
    exists calls. split; [| exact Hall].
    destruct c; cbn [snd]; exact Hm.
Qed.

(** ** Export-star wrappers without a call as first argument *)

(** C2 fails on the code: a top-level call of [__exportStar] or [__export]
    whose first argument is missing, or is a node without an [expression]
    property, makes the visit throw. *)
Theorem export_star_unchecked_argument_throws host resolve sf st
    (o : option Statement) (x : Identifier) :
  fst (visitTopLevelStatement host resolve sf
         {| kind := ExpressionStatement
                      (CallExpression (EIdentifier (createIdentifier "__exportStar")) []);
            stmtOriginal := o |} st) = TypeError /\
  fst (visitTopLevelStatement host resolve sf
         {| kind := ExpressionStatement
                      (CallExpression (EIdentifier (createIdentifier "__export"))
                         [EIdentifier x]);
            stmtOriginal := o |} st) = TypeError /\
  fst (commonJsToGoogmoduleTransformer (Samples.host false true) Samples.resolve
         (Samples.unit
            [Samples.stmt (CallExpression (Samples.ident "__exportStar") [])]))
  = TypeError.
Proof.
  split; [| split].
  - erewrite visit_import_site by reflexivity.
    now rewrite maybeCreateGoogRequire_throw.
  - erewrite visit_import_site by reflexivity.
    now rewrite maybeCreateGoogRequire_throw.
  - reflexivity.
Qed.

(** ** Position of the header *)

Lemma insertionIdx_min body :
  insertionIdx body = Nat.min 1 (leadingPlaceholders body).
Proof.
  destruct body as [| s rest]; [reflexivity |]. cbn.
  destruct (isNotEmitted s); reflexivity.
Qed.

(** X6: the header goes in after the first statement of the rewritten body
    when that is a placeholder, and in front of the body otherwise. *)
Lemma header_position host resolve sf out :
  isJsTranspilation host = false ->
  fst (commonJsToGoogmoduleTransformer host resolve sf) = Normal out ->
  exists body,
    stmts (snd (visitAll host resolve sf (statements sf)
                  (initialState
                     [AddModule (fileName sf) (pathToModuleName host "" (fileName sf))])))
    = body /\
    statements out
    = take (Nat.min 1 (leadingPlaceholders body)) body ++
      headerStmts host sf (pathToModuleName host "" (fileName sf)) ++
      drop (Nat.min 1 (leadingPlaceholders body)) body.
Proof.
  intros Hmode. unfold commonJsToGoogmoduleTransformer. rewrite Hmode.
  destruct (visitAll host resolve sf (statements sf) _) as [[[] |] st]; [| discriminate].
  intros [= <-]. exists (stmts st). split; [reflexivity |].
  cbn [statements updateSourceFileNode]. unfold splice. now rewrite insertionIdx_min.
Qed.

(** C3 fails on the code: for the usual start of a CommonJS file, ["use strict";]
    followed by the [__esModule] marker, the rewritten body starts with two
    placeholders and the header lands between them, not after both. *)
Theorem header_lands_between_placeholders :
  stmts (snd (visitAll (Samples.host false true) Samples.resolve Samples.strictUnit
                (statements Samples.strictUnit) (initialState [AddModule "f.ts" "f.ts"])))
  = [createNotEmittedStatement Samples.useStrict;
     createNotEmittedStatement Samples.esModuleMarker; Samples.other] /\
  leadingPlaceholders
    [createNotEmittedStatement Samples.useStrict;
     createNotEmittedStatement Samples.esModuleMarker; Samples.other] = 2 /\
  fst (commonJsToGoogmoduleTransformer (Samples.host false true) Samples.resolve
         Samples.strictUnit)
  = Normal
      {| fileName := "f.ts";
         statements :=
           [createNotEmittedStatement Samples.useStrict] ++
           headerStmts (Samples.host false true) Samples.strictUnit "f.ts" ++
           [createNotEmittedStatement Samples.esModuleMarker; Samples.other] |} /\
  fst (commonJsToGoogmoduleTransformer (Samples.host false true) Samples.resolve
         Samples.strictUnit)
  <> Normal
       {| fileName := "f.ts";
          statements :=
            [createNotEmittedStatement Samples.useStrict;
             createNotEmittedStatement Samples.esModuleMarker] ++
            headerStmts (Samples.host false true) Samples.strictUnit "f.ts" ++
            [Samples.other] |}.
Proof.
  repeat split; try reflexivity.
  vm_compute. discriminate.
Qed.

(** ** Registration of the referenced namespaces *)





(** ** Export-star wrappers and the order of the output *)








(** A wrapper around [require('')] is not split by the visit, it is copied to
    the output as the one statement it was. *)
Lemma export_star_of_empty_specifier_is_copied :
  stmts (snd (visitTopLevelStatement (Samples.host false true) Samples.resolve
                (Samples.unit [Samples.exportStar ""]) (Samples.exportStar "")
                (initialState [])))
  = [Samples.exportStar ""] /\
  length (stmts (snd (visitTopLevelStatement (Samples.host false true) Samples.resolve
                        (Samples.unit [Samples.exportStar ""]) (Samples.exportStar "")
                        (initialState [])))) <> 2.
Proof. split; [reflexivity | vm_compute; discriminate]. Qed.

(** C5 fails on the code: the file [__exportStar(require(''), exports);] is
    converted to the header followed by that statement as it was; the wrapper is
    not split in two, no [goog.require] is made and nothing is registered for
    the import. The null test of [maybeCreateGoogRequire] on the URL also
    catches the empty string. *)
Theorem export_star_of_empty_specifier_stays_whole :
  commonJsToGoogmoduleTransformer (Samples.host false true) Samples.resolve
    (Samples.unit [Samples.exportStar ""])
  = (Normal
       {| fileName := "f.ts";
          statements :=
            headerStmts (Samples.host false true) (Samples.unit [Samples.exportStar ""])
              "f.ts" ++
            [Samples.exportStar ""] |},
     [AddModule "f.ts" "f.ts"]).
Proof. reflexivity. Qed.



(** ** One [goog.require] per namespace *)




(** C1 fails on the code: a file with the three forms of import, each of the
    empty URL, is converted to the header followed by its three statements as
    they were. The namespace of that URL is imported three times, yet no
    [goog.require] is made, nothing is bound in the table and nothing is
    registered: the null test of [maybeCreateGoogRequire] on the URL also
    catches the empty string. *)
Theorem empty_import_is_not_required :
  commonJsToGoogmoduleTransformer (Samples.host false true) Samples.resolve
    Samples.emptyImports
  = (Normal
       {| fileName := "f.ts";
          statements :=
            headerStmts (Samples.host false true) Samples.emptyImports "f.ts" ++
            statements Samples.emptyImports |},
     [AddModule "f.ts" "f.ts"]) /\
  namespaceToModuleVarName
    (snd (visitAll (Samples.host false true) Samples.resolve Samples.emptyImports
            (statements Samples.emptyImports) (initialState [AddModule "f.ts" "f.ts"])))
  !! pathToModuleName (Samples.host false true) "f.ts" ""
  = None.
Proof. split; reflexivity. Qed.



(** ** The substitution hook *)

Lemma prefix_app p : forall s, String.prefix p s = true -> exists r, s = p +:+ r.
Proof.
  induction p as [| a p IH]; intros [| b s]; cbn; try discriminate.
  - now exists "".
  - now exists (String b s).
  - destruct (Ascii.ascii_dec a b) as [-> |]; [| discriminate].
    intros H. destruct (IH _ H) as [r ->]. now exists r.
Qed.

Lemma substring_all s : String.substring 0 (String.length s) s = s.
Proof. induction s as [| a s IH]; cbn; [reflexivity | now rewrite IH]. Qed.

Lemma extractGoogNamespaceImport_goog ns :
  extractGoogNamespaceImport ("goog:" +:+ ns) = Some ns.
Proof.
  unfold extractGoogNamespaceImport. cbv [String.append]. cbn.
  rewrite Nat.sub_0_r, substring_all. now destruct ns.
Qed.

Lemma truthy_extractGoogNamespaceImport spec :
  truthy (extractGoogNamespaceImport spec) = true <->
  exists ns, spec = "goog:" +:+ ns /\ ns <> "".
Proof.
  split.
  - intros H. destruct (String.prefix "goog:" spec) eqn:Hp.
    + apply prefix_app in Hp as [ns ->]. rewrite extractGoogNamespaceImport_goog in H.
      exists ns. split; [reflexivity |]. now destruct ns.
    + unfold extractGoogNamespaceImport in H. rewrite Hp in H. discriminate.
  - intros (ns & -> & Hns). rewrite extractGoogNamespaceImport_goog.
    now destruct ns.
Qed.

Lemma declarationOfSymbol_traced getSym ident decl :
  declarationOfSymbol getSym ident = Some decl <->
  exists sym d rest p,
    getSym ident = Some sym /\ declarations sym = Some (d :: rest) /\
    parent d = Some p /\ parent p = Some decl /\ isImportDeclaration decl = true.
Proof.
  unfold declarationOfSymbol. split.
  - destruct (getSym ident) as [sym |] eqn:Hsym; [| discriminate].
    destruct (declarations sym) as [[| d rest] |] eqn:Hd; try discriminate.
    destruct (parent d) as [p |] eqn:Hp; [| discriminate].
    destruct (parent p) as [g |] eqn:Hg; [| discriminate].
    destruct (isImportDeclaration g) eqn:Hi; [| discriminate].
    intros [= <-]. exists sym, d, rest, p. repeat split; first [reflexivity | assumption].
  - intros (sym & d & rest & p & -> & -> & -> & -> & ->). reflexivity.
Qed.

Lemma importExportDeclOf_traced getSym ident decl :
  importExportDeclOf getSym ident = Some decl <-> TracedTo getSym ident decl.
Proof.
  unfold importExportDeclOf. split.
  - destruct (original ident) as [o |] eqn:Ho; cbn [fmap option_fmap option_map].
    + destruct (isImportDeclaration (getOriginalNode o)
                || isExportDeclaration (getOriginalNode o)) eqn:Hkind.
      * intros [= <-]. now apply (traced_by_original _ _ _ o).
      * intros (sym & d & rest & p & Hsym & Hd & Hp & Hg & Hi)%declarationOfSymbol_traced.
        apply (traced_by_symbol _ _ _ sym d rest p); auto.
        intros o' Ho'. rewrite Ho in Ho'. injection Ho' as <-. exact Hkind.
    + intros (sym & d & rest & p & Hsym & Hd & Hp & Hg & Hi)%declarationOfSymbol_traced.
      apply (traced_by_symbol _ _ _ sym d rest p); auto.
      intros o' Ho'. rewrite Ho in Ho'. discriminate.
  - intros [o Ho <- Hkind | sym d rest p Horig Hsym Hd Hp Hg Hi].
    + rewrite Ho. cbn [fmap option_fmap option_map]. now rewrite Hkind.
    + assert (declarationOfSymbol getSym ident = Some decl) as Hdecl.
      { apply declarationOfSymbol_traced. exists sym, d, rest, p.
        repeat split; assumption. }
      destruct (original ident) as [o |]; cbn [fmap option_fmap option_map];
        [| exact Hdecl].
      now rewrite (Horig o eq_refl).
Qed.

(** C7 fails on the code: the specifier [goog:] begins with the prefix, yet the
    access [foo.default] stays as it is, because the hook tests the extracted
    namespace, here the empty string, for truth; and an access whose identifier
    leads to an export declaration without specifier is not returned, the hook
    throws on the unchecked cast. *)
Lemma bare_goog_prefix_is_not_substituted :
  (TracedToGoogPrefix Samples.noSymbols (Samples.imported "foo" "goog:") /\
   onSubstituteNode Samples.noPreviousHook Samples.noSymbols 0
     (Samples.defaultAccess "foo" "goog:")
   = Normal (Samples.defaultAccess "foo" "goog:") /\
   onSubstituteNode Samples.noPreviousHook Samples.noSymbols 0
     (Samples.defaultAccess "foo" "goog:")
   <> Normal (EIdentifier (Samples.imported "foo" "goog:"))) /\
  onSubstituteNode Samples.noPreviousHook Samples.noSymbols 0
    (Samples.defaultAccessOfLocalExport "foo")
  = TypeError.
Proof.
  split; [| reflexivity].
  split; [| split; [reflexivity | discriminate]].
  exists (Samples.importOf "goog:"), "goog:". split; [| split; reflexivity].
  now apply (traced_by_original _ _ _ (Samples.importOf "goog:")).
Qed.

(** X22: on the node the earlier hook returns, the hook replaces
    [ident.default] by [ident] when [ident] is traced, through its original
    node or else through its symbol, to a declaration whose specifier is
    [goog:] followed by a non-empty namespace; whatever else the hook returns
    is that node, unchanged. *)
Theorem default_access_substitution prev getSym hint node :
  (forall ident name,
      prev hint node = PropertyAccessExpression (EIdentifier ident) name ->
      text name = "default" ->
      TracedToGoogNamespace getSym ident ->
      onSubstituteNode prev getSym hint node = Normal (EIdentifier ident)) /\
  (forall result,
      onSubstituteNode prev getSym hint node = Normal result ->
      result = prev hint node \/
      exists ident name,
        prev hint node = PropertyAccessExpression (EIdentifier ident) name /\
        text name = "default" /\
        TracedToGoogNamespace getSym ident /\
        result = EIdentifier ident).
Proof.
  unfold onSubstituteNode. split.
  - intros ident name -> Hname (decl & ns & Htraced & Hspec & Hns).
    rewrite Hname. cbn [String.eqb negb].
    apply importExportDeclOf_traced in Htraced. rewrite Htraced, Hspec.
    rewrite extractGoogNamespaceImport_goog. now destruct ns.
  - intros result Hres.
    destruct (prev hint node) as [| | | [ident | | | | | | |] name | | | |];
      try (injection Hres as <-; now left).
    destruct (String.eqb_spec (text name) "default") as [Hname |];
      cbn [negb] in Hres; [| injection Hres as <-; now left].
    destruct (importExportDeclOf getSym ident) as [decl |] eqn:Hdecl;
      [| injection Hres as <-; now left].
    destruct (moduleSpecifierText decl) as [spec |] eqn:Hspec; [| discriminate].
    destruct (truthy (extractGoogNamespaceImport spec)) eqn:Hgoog;
      [| injection Hres as <-; now left].
    injection Hres as <-. right.
    apply truthy_extractGoogNamespaceImport in Hgoog as (ns & -> & Hns).
    exists ident, name. repeat split; try assumption.
    exists decl, ns. repeat split; try assumption.
    now apply importExportDeclOf_traced.
Qed.

Lemma default_access_substitution_witness :
  onSubstituteNode Samples.noPreviousHook Samples.noSymbols 0
    (Samples.defaultAccess "foo" "goog:foo.Bar")
  = Normal (EIdentifier (Samples.imported "foo" "goog:foo.Bar")) /\
  exists ident,
    TracedToGoogNamespace Samples.noSymbols ident /\
    EIdentifier (Samples.imported "foo" "goog:foo.Bar") = EIdentifier ident.
Proof.
  pose proof (default_access_substitution Samples.noPreviousHook Samples.noSymbols 0
                (Samples.defaultAccess "foo" "goog:foo.Bar")) as [Hif Honly].
  assert (onSubstituteNode Samples.noPreviousHook Samples.noSymbols 0
            (Samples.defaultAccess "foo" "goog:foo.Bar")
          = Normal (EIdentifier (Samples.imported "foo" "goog:foo.Bar"))) as Hrun.
  { apply (Hif _ (createIdentifier "default")); [reflexivity | reflexivity |].
    exists (Samples.importOf "goog:foo.Bar"), "foo.Bar".
    split; [| split; [reflexivity | discriminate]].
    now apply (traced_by_original _ _ _ (Samples.importOf "goog:foo.Bar")). }
  split; [exact Hrun |].
  destruct (Honly _ Hrun) as [Hsame | (ident & name & _ & _ & Htraced & Hresult)];
    [discriminate |].
  exists ident. split; [exact Htraced | exact Hresult].
Defined.

(** C8: when the earlier hook leaves the results of the hook as they are, the
    hook returns its own result unchanged when it is applied to it. *)
Theorem default_access_substitution_idempotent prev getSym :
  (forall hint hint' node result,
      onSubstituteNode prev getSym hint node = Normal result ->
      prev hint' result = result) ->
  forall hint hint' node result,
    onSubstituteNode prev getSym hint node = Normal result ->
    onSubstituteNode prev getSym hint' result = Normal result.
Proof.
  intros Hprev hint hint' node result Hres.
  pose proof (Hprev _ hint' _ _ Hres) as Hfix.
  unfold onSubstituteNode in *. rewrite Hfix.
  destruct (prev hint node) as [| | | [ident | | | | | | |] name | | | |];
    try (injection Hres as <-; reflexivity).
  destruct (negb (String.eqb (text name) "default")) eqn:Hname.
  - injection Hres as <-. now rewrite Hname.
  - destruct (importExportDeclOf getSym ident) as [decl |] eqn:Hdecl.
    + destruct (moduleSpecifierText decl) as [spec |] eqn:Hspec; [| discriminate].
      destruct (truthy (extractGoogNamespaceImport spec)) eqn:Hgoog.
      * injection Hres as <-. reflexivity.
      * injection Hres as <-. now rewrite Hname, Hdecl, Hspec, Hgoog.
    + injection Hres as <-. now rewrite Hname, Hdecl.
Qed.

Lemma default_access_substitution_idempotent_witness :
  onSubstituteNode Samples.noPreviousHook Samples.noSymbols 0
    (EIdentifier (Samples.imported "foo" "goog:foo.Bar"))
  = Normal (EIdentifier (Samples.imported "foo" "goog:foo.Bar")).
Proof.
  apply (default_access_substitution_idempotent Samples.noPreviousHook Samples.noSymbols
           (fun _ _ _ _ _ => eq_refl) 0 0 (Samples.defaultAccess "foo" "goog:foo.Bar")).
  reflexivity.
Defined.


(** * Further properties *)

(** ** [extractRequire] *)

Lemma escapedText_plain ident s :
  String.prefix "__" s = false -> escapedText ident = s <-> text ident = s.
Proof.
  intros Hs. unfold escapedText, escapeLeadingUnderscores.
  destruct (String.prefix "__" (text ident)) eqn:Hp; [| reflexivity].
  split; intros H.
  - apply prefix_app in Hp as [r Hr]. rewrite Hr in H. subst s. discriminate.
  - rewrite H in Hp. congruence.
Qed.

Lemma extractRequire_call_normal callee args :
  extractRequire (Some (CallExpression callee args)) <> TypeError.
Proof.
  cbn. destruct callee as [ident | | | | | | |]; try discriminate.
  destruct (negb _); [discriminate |].
  destruct args as [| [] [| ? ?]]; discriminate.
Qed.

(** X1: on a call expression [extractRequire] does not throw, and it returns a
    URL exactly for a call of the identifier [require] on one string literal,
    whose text is the URL. *)
Theorem extractRequire_of_call callee args :
  extractRequire (Some (CallExpression callee args)) <> TypeError /\
  forall url,
    extractRequire (Some (CallExpression callee args)) = Normal (Some url) <->
    exists ident q,
      callee = EIdentifier ident /\ text ident = "require" /\
      args = [StringLiteral url q].
Proof.
  split; [apply extractRequire_call_normal |].
  intros url. split.
  - cbn. destruct callee as [ident | | | | | | |]; try discriminate.
    destruct (String.eqb_spec (escapedText ident) "require") as [Hname |];
      [| discriminate].
    apply escapedText_plain in Hname; [| reflexivity].
    cbn [negb]. destruct args as [| [] [| ? ?]]; try discriminate.
    intros [= ->]. eauto.
  - intros (ident & q & -> & Hname & ->). cbn.
    apply (escapedText_plain ident "require" eq_refl) in Hname. now rewrite Hname.
Qed.

(** ** When the conversion throws *)

Lemma importCall_inv node call :
  importCall node = Some call ->
  (exists callee args,
      kind node = ExpressionStatement (CallExpression callee args) /\
      isExportStarCallee callee = true /\ call = head args) \/
  (exists callee args, call = Some (CallExpression callee args)).
Proof.
  unfold importCall. destruct node as [k o]; cbn [kind].
  destruct k as [expr | decls | | tag]; try discriminate.
  - destruct (isUseStrict _ || isEsModuleProperty _); [discriminate |].
    destruct (rewriteModuleExportsAssignment _); [discriminate |].
    destruct expr as [| | callee args | | | | |]; try discriminate.
    destruct (isExportStarCallee callee) eqn:Hstar; intros [= <-]; eauto 6.
  - destruct decls as [| [name init] [| ? ?]]; try discriminate.
    cbn [declName declInitializer]. destruct name; [| discriminate].
    destruct init as [[] |]; try discriminate. intros [= <-]. eauto.
Qed.


Lemma maybeCreateGoogRequire_throws host resolve sf original call newIdent st :
  fst (maybeCreateGoogRequire host resolve sf original call newIdent st) = TypeError <->
  extractRequire call = TypeError.
Proof.
  destruct (extractRequire call) as [[[| c s] |] |] eqn:E.
  - rewrite maybeCreateGoogRequire_none by auto. split; discriminate.
  - rewrite (maybeCreateGoogRequire_some _ _ _ _ _ _ _ _ _ E). cbv zeta.
    destruct (_ !! _); split; discriminate.
  - rewrite maybeCreateGoogRequire_none by auto. split; discriminate.
  - rewrite maybeCreateGoogRequire_throw by auto. split; reflexivity.
Qed.

Lemma visit_import_site_throws host resolve sf node call st :
  importCall node = Some call ->
  fst (visitTopLevelStatement host resolve sf node st) = TypeError <->
  extractRequire call = TypeError.
Proof.
  intros Hsite. rewrite (visit_import_site _ _ _ _ _ _ Hsite).
  rewrite <- (maybeCreateGoogRequire_throws host resolve sf node call
                (importIdent node st)
                {| moduleVarCounter := counterAfter node st;
                   namespaceToModuleVarName := namespaceToModuleVarName st;
                   stmts := stmts st;
                   manifest := manifest st |}).
  destruct (maybeCreateGoogRequire _ _ _ _ _ _ _) as [[[req |] |] st'];
    split; (discriminate || reflexivity).
Qed.

Lemma visit_throws_inv host resolve sf node st :
  fst (visitTopLevelStatement host resolve sf node st) = TypeError ->
  exists callee args,
    kind node = ExpressionStatement (CallExpression callee args) /\
    isExportStarCallee callee = true /\
    extractRequire (head args) = TypeError.
Proof.
  destruct (importCall node) as [call |] eqn:Hsite.
  - rewrite (visit_import_site_throws _ _ _ _ _ _ Hsite). intros Hthrow.
    destruct (importCall_inv _ _ Hsite)
      as [(callee & args & Hk & Hstar & ->) | (callee & args & ->)].
    + eauto.
    + now apply extractRequire_call_normal in Hthrow.
  - rewrite (visit_not_import_site _ _ _ _ _ Hsite). discriminate.
Qed.


Lemma visitAll_completes host resolve sf nodes :
  Forall (fun node =>
            forall callee args,
              kind node = ExpressionStatement (CallExpression callee args) ->
              isExportStarCallee callee = true ->
              exists c a rest, args = CallExpression c a :: rest) nodes ->
  forall st, exists st', visitAll host resolve sf nodes st = (Normal tt, st').
Proof.
  induction 1 as [| node rest Hnode _ IH]; intros st; [eexists; reflexivity |].
  rewrite visitAll_cons.
  destruct (visitTopLevelStatement host resolve sf node st) as [[[] |] st1] eqn:Hstep;
    [apply IH |].
  assert (fst (visitTopLevelStatement host resolve sf node st) = TypeError) as Hthrow
    by now rewrite Hstep.
  apply visit_throws_inv in Hthrow as (callee & args & Hk & Hstar & Hthrow).
  destruct (Hnode _ _ Hk Hstar) as (c & a & tail & ->).
  now apply extractRequire_call_normal in Hthrow.
Qed.

(** X3: the conversion of a file completes, in either mode, when the first
    argument of every top-level call of [__exportStar] or [__export] is a call
    expression. *)
Theorem conversion_completes host resolve sf :
  Forall (fun node =>
            forall callee args,
              kind node = ExpressionStatement (CallExpression callee args) ->
              isExportStarCallee callee = true ->
              exists c a rest, args = CallExpression c a :: rest) (statements sf) ->
  exists out, fst (commonJsToGoogmoduleTransformer host resolve sf) = Normal out.
Proof.
  intros Hsf. unfold commonJsToGoogmoduleTransformer.
  destruct (isJsTranspilation host); [eexists; reflexivity |].
  destruct (visitAll_completes host resolve sf _ Hsf
              (initialState
                 [AddModule (fileName sf) (pathToModuleName host "" (fileName sf))]))
    as [st' ->].
  eexists. reflexivity.
Qed.

Lemma conversion_completes_witness :
  exists out,
    fst (commonJsToGoogmoduleTransformer (Samples.host false true) Samples.resolve
           (Samples.unit [Samples.exportStar "./c"; Samples.other]))
    = Normal out.
Proof.
  apply conversion_completes. repeat constructor.
  - intros callee args [= <- <-] _. eauto.
  - intros callee args [=].
Defined.

Lemma extractRequire_of_call_witness :
  extractRequire (Some (Samples.require "./a")) = Normal (Some "./a").
Proof.
  apply (extractRequire_of_call (Samples.ident "require") [StringLiteral "./a" false]).
  exists (createIdentifier "require"), false. repeat split.
Defined.


(** ** Size of the output *)

Lemma starCall_length host resolve sf node ns ident :
  importedNamespace host resolve sf node = Some ns ->
  length (starCall node ident) = if isSplitWrapper host resolve sf node then 1 else 0.
Proof.
  intros Hns. unfold starCall, isSplitWrapper. rewrite Hns.
  destruct (kind node) as [[| | callee args | | | | |] | | |]; try reflexivity.
  now destruct (isExportStarCallee callee).
Qed.

Lemma visit_length host resolve sf node st st' :
  visitTopLevelStatement host resolve sf node st = (Normal tt, st') ->
  length (stmts st')
  = length (stmts st) + 1 + (if isSplitWrapper host resolve sf node then 1 else 0).
Proof.
  destruct (importedNamespace host resolve sf node) as [ns |] eqn:E.
  - rewrite (visit_import _ _ _ _ _ _ E). intros [= <-]. cbn [stmts].
    rewrite length_app. cbn [length].
    rewrite (starCall_length _ _ _ _ _ _ E). lia.
  - destruct (visit_not_import host resolve sf node st E) as [[n ->] | [n ->]];
      [discriminate |].
    intros [= <-]. cbn [stmts]. rewrite length_app. cbn [length].
    unfold isSplitWrapper. rewrite E.
    destruct (kind node) as [[] | | |]; lia.
Qed.

Lemma visitAll_length host resolve sf nodes : forall st st',
  visitAll host resolve sf nodes st = (Normal tt, st') ->
  length (stmts st')
  = length (stmts st) + length nodes
    + length (List.filter (isSplitWrapper host resolve sf) nodes).
Proof.
  induction nodes as [| node rest IH]; intros st st'.
  - intros [= <-]. cbn. lia.
  - rewrite visitAll_cons.
    destruct (visitTopLevelStatement host resolve sf node st) as [[[] |] st1] eqn:Hstep;
      [| discriminate].
    intros Hrest. rewrite (IH _ _ Hrest), (visit_length _ _ _ _ _ _ Hstep).
    cbn [List.filter length]. destruct (isSplitWrapper host resolve sf node); cbn; lia.
Qed.

(** X4: a conversion outside transpilation mode that completes puts out one
    statement for every statement of the file, one more for every export-star
    wrapper it splits, and the header; no statement is dropped. *)
Theorem output_size host resolve sf out :
  isJsTranspilation host = false ->
  fst (commonJsToGoogmoduleTransformer host resolve sf) = Normal out ->
  length (statements out)
  = length (statements sf)
    + length (List.filter (isSplitWrapper host resolve sf) (statements sf))
    + length (headerStmts host sf (pathToModuleName host "" (fileName sf))).
Proof.
  intros Hmode. unfold commonJsToGoogmoduleTransformer. rewrite Hmode.
  destruct (visitAll host resolve sf (statements sf) _) as [[[] |] st] eqn:Hrun;
    [| discriminate].
  intros [= <-]. cbn [statements updateSourceFileNode]. unfold splice.
  rewrite !length_app, <- Nat.add_assoc, (Nat.add_comm (length (headerStmts _ _ _))).
  rewrite Nat.add_assoc, <- length_app, take_drop.
  rewrite (visitAll_length _ _ _ _ _ _ Hrun). cbn [initialState stmts length]. lia.
Qed.

Lemma output_size_witness :
  exists out,
    fst (commonJsToGoogmoduleTransformer (Samples.host false true) Samples.resolve
           (Samples.unit [Samples.exportStar "./c"; Samples.other]))
    = Normal out /\
    length (statements out) = 2 + 1 + 2.
Proof.
  eexists. split; [reflexivity |].
  exact (output_size (Samples.host false true) Samples.resolve
           (Samples.unit [Samples.exportStar "./c"; Samples.other]) _ eq_refl eq_refl).
Defined.

(** ** The header *)




Lemma header_position_witness :
  exists out body,
    fst (commonJsToGoogmoduleTransformer (Samples.host false true) Samples.resolve
           Samples.strictUnit) = Normal out /\
    statements out
    = take (Nat.min 1 (leadingPlaceholders body)) body ++
      headerStmts (Samples.host false true) Samples.strictUnit "f.ts" ++
      drop (Nat.min 1 (leadingPlaceholders body)) body.
Proof.
  destruct (header_position (Samples.host false true) Samples.resolve Samples.strictUnit
              _ eq_refl eq_refl) as (body & _ & Hout).
  eexists _, body. split; [reflexivity | exact Hout].
Defined.

(** ** Synthetic names *)

Lemma maybeCreateGoogRequire_counter host resolve sf original call newIdent st :
  moduleVarCounter
    (snd (maybeCreateGoogRequire host resolve sf original call newIdent st))
  = moduleVarCounter st.
Proof.
  destruct (extractRequire call) as [[[| c s] |] |] eqn:E.
  - now rewrite maybeCreateGoogRequire_none by auto.
  - rewrite (maybeCreateGoogRequire_some _ _ _ _ _ _ _ _ _ E). cbv zeta.
    now destruct (_ !! _).
  - now rewrite maybeCreateGoogRequire_none by auto.
  - now rewrite maybeCreateGoogRequire_throw by auto.
Qed.

Lemma takesModuleVar_site node :
  takesModuleVar node
  = match kind node, importCall node with
    | ExpressionStatement _, Some _ => true
    | _, _ => false
    end.
Proof.
  unfold takesModuleVar, importCall, isUseStrict, rewriteModuleExportsAssignment.
  destruct (kind node) as [expr | decls | | tag]; try reflexivity.
  destruct expr as [| t q | callee args | | lhs op rhs | | |];
    try (cbn; reflexivity).
  - cbn. now destruct (String.eqb t "use strict").
  - cbn -[isEsModuleProperty].
    now destruct (isEsModuleProperty (CallExpression callee args)).
  - cbn. destruct op; try reflexivity.
    now destruct (isPropertyAccess lhs "module" "exports").
Qed.

Lemma visit_counter host resolve sf node st :
  moduleVarCounter (snd (visitTopLevelStatement host resolve sf node st))
  = moduleVarCounter st + (if takesModuleVar node then 1 else 0).
Proof.
  rewrite takesModuleVar_site. destruct (importCall node) as [call |] eqn:Hsite.
  - rewrite (visit_import_site _ _ _ _ _ _ Hsite).
    pose proof (maybeCreateGoogRequire_counter host resolve sf node call
                  (importIdent node st)
                  {| moduleVarCounter := counterAfter node st;
                     namespaceToModuleVarName := namespaceToModuleVarName st;
                     stmts := stmts st;
                     manifest := manifest st |}) as Hc.
    destruct (maybeCreateGoogRequire _ _ _ _ _ _ _) as [[[req |] |] st'];
      cbn [snd moduleVarCounter] in *; rewrite Hc; unfold counterAfter;
      destruct (kind node); lia.
  - rewrite (visit_not_import_site _ _ _ _ _ Hsite). cbn [snd moduleVarCounter].
    destruct (kind node); lia.
Qed.






(** ** What the visit keeps *)

Lemma visit_grows host resolve sf node st :
  let st' := snd (visitTopLevelStatement host resolve sf node st) in
  stmts st `prefix_of` stmts st' /\
  manifest st `prefix_of` manifest st' /\
  namespaceToModuleVarName st ⊆ namespaceToModuleVarName st'.
Proof.
  cbv zeta. destruct (importedNamespace host resolve sf node) as [ns |] eqn:E.
  - rewrite (visit_import _ _ _ _ _ _ E).
    cbn [snd stmts manifest namespaceToModuleVarName].
    split; [now eexists | split; [now eexists |]].
    destruct (namespaceToModuleVarName st !! ns) eqn:Hb; [reflexivity |].
    now apply insert_subseteq.
  - destruct (visit_not_import host resolve sf node st E) as [[n ->] | [n ->]];
      cbn [snd stmts manifest namespaceToModuleVarName];
      (split; [| split; [| reflexivity]]); try reflexivity; now eexists.
Qed.

(** X9: the visit only adds: whatever the outcome, a throw included, the
    output and the list of manifest calls it started with are prefixes of the
    ones it ends with, the counter has not gone down, and every binding of the
    table is still there with the same identifier. *)
Theorem visit_only_adds host resolve sf nodes : forall st c st',
  visitAll host resolve sf nodes st = (c, st') ->
  stmts st `prefix_of` stmts st' /\
  manifest st `prefix_of` manifest st' /\
  moduleVarCounter st <= moduleVarCounter st' /\
  namespaceToModuleVarName st ⊆ namespaceToModuleVarName st'.
Proof.
  induction nodes as [| node rest IH]; intros st c st'.
  - intros [= <- <-]. repeat split; reflexivity.
  - rewrite visitAll_cons.
    pose proof (visit_grows host resolve sf node st) as (Hs & Hm & Hb).
    pose proof (visit_counter host resolve sf node st) as Hc.
    destruct (visitTopLevelStatement host resolve sf node st) as [[[] |] st1];
      cbn [snd] in *.
    + intros Hrest. destruct (IH _ _ _ Hrest) as (Hs' & Hm' & Hc' & Hb').
      repeat split; try (etrans; eassumption). lia.
    + intros [= <- <-]. repeat split; try assumption. lia.
Qed.

Lemma visit_only_adds_witness :
  namespaceToModuleVarName (initialState [])
  ⊆ namespaceToModuleVarName
      (snd (visitAll (Samples.host false true) Samples.resolve (Samples.unit [])
              [Samples.stmt (Samples.require "./a")] (initialState []))).
Proof.
  destruct (visit_only_adds (Samples.host false true) Samples.resolve (Samples.unit [])
              [Samples.stmt (Samples.require "./a")] (initialState []) _ _ eq_refl)
    as (_ & _ & _ & Hb).
  exact Hb.
Defined.

Lemma visit_binding host resolve sf node st st' ns :
  visitTopLevelStatement host resolve sf node st = (Normal tt, st') ->
  is_Some (namespaceToModuleVarName st' !! ns) <->
  is_Some (namespaceToModuleVarName st !! ns) \/
  importedNamespace host resolve sf node = Some ns.
Proof.
  destruct (importedNamespace host resolve sf node) as [ns' |] eqn:E.
  - rewrite (visit_import _ _ _ _ _ _ E). intros [= <-].
    cbn [namespaceToModuleVarName].
    destruct (decide (ns' = ns)) as [-> | Hne].
    + destruct (namespaceToModuleVarName st !! ns) eqn:Hb.
      * rewrite Hb. split; eauto.
      * rewrite lookup_insert_eq. split; eauto.
    + assert (match namespaceToModuleVarName st !! ns' with
              | Some _ => namespaceToModuleVarName st
              | None => <[ns' := importIdent node st]> (namespaceToModuleVarName st)
              end !! ns = namespaceToModuleVarName st !! ns) as ->.
      { destruct (namespaceToModuleVarName st !! ns');
          [reflexivity | now apply lookup_insert_ne]. }
      split; [now left |]. intros [H | [= H]]; [exact H | contradiction].
  - destruct (visit_not_import host resolve sf node st E) as [[n ->] | [n ->]];
      [discriminate |].
    intros [= <-]. cbn [namespaceToModuleVarName].
    split; [now left |]. now intros [H | H].
Qed.

(** X10: after a visit that completes, the binding table holds a namespace
    exactly when it held it before or a statement of the visit imports it; from
    the empty table, its keys are the imported namespaces. *)
Theorem binding_table_keys host resolve sf nodes : forall st st' ns,
  visitAll host resolve sf nodes st = (Normal tt, st') ->
  is_Some (namespaceToModuleVarName st' !! ns) <->
  is_Some (namespaceToModuleVarName st !! ns) \/
  ns ∈ omap (importedNamespace host resolve sf) nodes.
Proof.
  induction nodes as [| node rest IH]; intros st st' ns.
  - intros [= <-]. cbn. rewrite elem_of_nil. tauto.
  - rewrite visitAll_cons.
    destruct (visitTopLevelStatement host resolve sf node st) as [[[] |] st1] eqn:Hstep;
      [| discriminate].
    intros Hrest. rewrite (IH _ _ ns Hrest), (visit_binding _ _ _ _ _ _ ns Hstep).
    cbn [omap list_omap].
    destruct (importedNamespace host resolve sf node) as [ns' |].
    + rewrite elem_of_cons. split.
      * intros [[H | [= ->]] | H]; auto.
      * intros [H | [-> | H]]; auto.
    + split.
      * intros [[H | [=]] | H]; auto.
      * intros [H | H]; auto.
Qed.

Lemma binding_table_keys_witness :
  is_Some (namespaceToModuleVarName
             (snd (visitAll (Samples.host false true) Samples.resolve (Samples.unit [])
                     [Samples.other; Samples.stmt (Samples.require "./a")]
                     (initialState []))) !! "./a").
Proof.
  apply (binding_table_keys (Samples.host false true) Samples.resolve (Samples.unit [])
           [Samples.other; Samples.stmt (Samples.require "./a")] (initialState []) _ "./a"
           eq_refl).
  right. exact (list_elem_of_here "./a" []).
Defined.

(** ** goog: imports *)

(** X11: [extractGoogNamespaceImport] returns [ns] exactly for the import URL
    [goog:] followed by [ns], the empty [ns] included, and [null] exactly for
    the URLs that do not begin with [goog:]. *)
Theorem goog_namespace_round_trip tsImport :
  (forall ns, extractGoogNamespaceImport tsImport = Some ns <->
              tsImport = "goog:" +:+ ns) /\
  (extractGoogNamespaceImport tsImport = None <->
   String.prefix "goog:" tsImport = false).
Proof.
  split.
  - intros ns. split.
    + intros H. destruct (String.prefix "goog:" tsImport) eqn:Hp.
      * apply prefix_app in Hp as [r ->]. rewrite extractGoogNamespaceImport_goog in H.
        now injection H as ->.
      * unfold extractGoogNamespaceImport in H. rewrite Hp in H. discriminate.
    + intros ->. apply extractGoogNamespaceImport_goog.
  - unfold extractGoogNamespaceImport.
    destruct (String.prefix "goog:" tsImport); split; (discriminate || reflexivity).
Qed.

Lemma goog_namespace_round_trip_witness :
  extractGoogNamespaceImport "goog:foo.Bar" = Some "foo.Bar".
Proof.
  apply (proj1 (goog_namespace_round_trip "goog:foo.Bar")). reflexivity.
Defined.



(** ** The index-shorthand resolution *)

Lemma importPathToGoogNamespace_resolver host r1 r2 file tsImport :
  convertIndexImportShorthand host = false ->
  importPathToGoogNamespace host r1 file tsImport
  = importPathToGoogNamespace host r2 file tsImport.
Proof. intros Hflag. unfold importPathToGoogNamespace. now rewrite Hflag. Qed.

Lemma maybeCreateGoogRequire_resolver host r1 r2 sf original call newIdent st :
  convertIndexImportShorthand host = false ->
  maybeCreateGoogRequire host r1 sf original call newIdent st
  = maybeCreateGoogRequire host r2 sf original call newIdent st.
Proof.
  intros Hflag. destruct (extractRequire call) as [[[| c s] |] |] eqn:E.
  - now rewrite !maybeCreateGoogRequire_none by auto.
  - rewrite !(maybeCreateGoogRequire_some _ _ _ _ _ _ _ _ _ E). cbv zeta.
    now rewrite (importPathToGoogNamespace_resolver host r1 r2 sf _ Hflag).
  - now rewrite !maybeCreateGoogRequire_none by auto.
  - now rewrite !maybeCreateGoogRequire_throw by auto.
Qed.

Lemma visitAll_resolver host r1 r2 sf nodes :
  convertIndexImportShorthand host = false ->
  forall st, visitAll host r1 sf nodes st = visitAll host r2 sf nodes st.
Proof.
  intros Hflag. induction nodes as [| node rest IH]; intros st; [reflexivity |].
  rewrite !visitAll_cons.
  assert (visitTopLevelStatement host r1 sf node st
          = visitTopLevelStatement host r2 sf node st) as ->.
  { destruct (importCall node) as [call |] eqn:Hsite.
    - rewrite !(visit_import_site _ _ _ _ _ _ Hsite).
      now rewrite (maybeCreateGoogRequire_resolver host r1 r2 sf _ _ _ _ Hflag).
    - now rewrite !(visit_not_import_site _ _ _ _ _ Hsite). }
  destruct (visitTopLevelStatement host r2 sf node st) as [[[] |] st1];
    [apply IH | reflexivity].
Qed.

(** X13: with [convertIndexImportShorthand] unset the index-shorthand
    resolution is not consulted: the converted file and the manifest calls are
    the same whatever that resolution would answer. *)
Theorem resolver_used_only_on_request host r1 r2 sf :
  convertIndexImportShorthand host = false ->
  commonJsToGoogmoduleTransformer host r1 sf = commonJsToGoogmoduleTransformer host r2 sf.
Proof.
  intros Hflag. unfold commonJsToGoogmoduleTransformer.
  now rewrite (visitAll_resolver host r1 r2 sf _ Hflag).
Qed.

Lemma resolver_used_only_on_request_witness :
  commonJsToGoogmoduleTransformer (Samples.host false true) Samples.resolve Samples.twice
  = commonJsToGoogmoduleTransformer (Samples.host false true)
      (fun _ imported => imported +:+ "/index") Samples.twice.
Proof.
  exact (resolver_used_only_on_request (Samples.host false true) Samples.resolve
           (fun _ imported => imported +:+ "/index") Samples.twice eq_refl).
Defined.

(** ** Repeating a rewrite *)

Lemma maybeRewriteRequireTslib_idempotent s :
  maybeRewriteRequireTslib (maybeRewriteRequireTslib s) = maybeRewriteRequireTslib s.
Proof.
  destruct s as [k o]. destruct k as [expr | | |]; try reflexivity.
  destruct expr as [| | callee args | | | | |]; try reflexivity.
  destruct callee as [callee | | | | | | |]; try reflexivity.
  destruct args as [| arg [| ? ?]]; try reflexivity; [| now destruct arg].
  destruct arg as [| t q | | | | | |]; try reflexivity.
  unfold maybeRewriteRequireTslib at 2 3. cbn [kind].
  destruct (String.eqb (text callee) "require" && String.eqb t "tslib") eqn:Hc;
    [reflexivity |].
  unfold maybeRewriteRequireTslib. cbn [kind]. now rewrite Hc.
Qed.

(** X14: in transpilation mode the converter changes nothing in a file it has
    converted: a [goog.require('tslib')] it made is not a [require] call any
    more, and the other statements were left alone the first time. *)
Theorem transpilation_mode_is_idempotent host resolve sf out :
  isJsTranspilation host = true ->
  fst (commonJsToGoogmoduleTransformer host resolve sf) = Normal out ->
  fst (commonJsToGoogmoduleTransformer host resolve out) = Normal out.
Proof.
  intros Hmode. unfold commonJsToGoogmoduleTransformer. rewrite Hmode.
  intros [= <-]. cbn [fst statements fileName updateSourceFileNode].
  unfold updateSourceFileNode. cbn [fileName]. do 2 f_equal.
  rewrite map_map. apply map_ext. intros s. apply maybeRewriteRequireTslib_idempotent.
Qed.

Lemma transpilation_mode_is_idempotent_witness :
  fst (commonJsToGoogmoduleTransformer (Samples.host true false) Samples.resolve
         {| fileName := "f.ts";
            statements :=
              [withOriginal
                 (ExpressionStatement
                    (createGoogCall "require" (StringLiteral "tslib" false)))
                 (Samples.stmt (Samples.require "tslib"))] |})
  = Normal
      {| fileName := "f.ts";
         statements :=
           [withOriginal
              (ExpressionStatement
                 (createGoogCall "require" (StringLiteral "tslib" false)))
              (Samples.stmt (Samples.require "tslib"))] |}.
Proof.
  exact (transpilation_mode_is_idempotent (Samples.host true false) Samples.resolve
           (Samples.unit [Samples.stmt (Samples.require "tslib")]) _ eq_refl eq_refl).
Defined.

(** X15: [rewriteModuleExportsAssignment] rewrites exactly the statements that
    [isModuleExportsAssignment] accepts; what it returns keeps the statement as
    its original, is a statement [hasExportsAssignment] accepts, and is
    neither rewritten again nor changed when it is visited itself. *)
Theorem module_exports_rewritten_once node :
  (is_Some (rewriteModuleExportsAssignment node) <->
   exists expr, kind node = ExpressionStatement expr /\
                isModuleExportsAssignment expr = true) /\
  forall rewritten,
    rewriteModuleExportsAssignment node = Some rewritten ->
    stmtOriginal rewritten = Some node /\
    hasExportsAssignment rewritten = true /\
    rewriteModuleExportsAssignment rewritten = None /\
    plainRewrite rewritten = rewritten.
Proof.
  split; [split |].
  - intros [rewritten Hr]. unfold rewriteModuleExportsAssignment in Hr.
    destruct (kind node) as [[| | | | lhs [] rhs | | |] | | |]; try discriminate.
    destruct (isPropertyAccess lhs "module" "exports") eqn:Hp; [| discriminate].
    eexists. split; [reflexivity | exact Hp].
  - intros (expr & Hk & He). unfold rewriteModuleExportsAssignment. rewrite Hk.
    destruct expr as [| | | | lhs [] rhs | | |]; try discriminate.
    cbn in He. rewrite He. now eexists.
  - intros rewritten. unfold rewriteModuleExportsAssignment at 1.
    destruct (kind node) as [[| | | | lhs [] rhs | | |] | | |]; try discriminate.
    destruct (isPropertyAccess lhs "module" "exports"); [| discriminate].
    intros [= <-]. repeat split.
Qed.

Lemma module_exports_rewritten_once_witness :
  is_Some (rewriteModuleExportsAssignment
             (Samples.stmt
                (BinaryExpression
                   (PropertyAccessExpression (Samples.ident "module")
                      (createIdentifier "exports"))
                   EqualsToken TrueKeyword))).
Proof.
  apply module_exports_rewritten_once. eexists. split; reflexivity.
Defined.


(** ** The index shorthand *)

Lemma string_append_cons a s1 s2 : String a s1 +:+ s2 = String a (s1 +:+ s2).
Proof. reflexivity. Qed.

Lemma string_length_append s1 s2 :
  String.length (s1 +:+ s2) = String.length s1 + String.length s2.
Proof.
  induction s1 as [| a s1 IH]; [reflexivity |].
  rewrite string_append_cons. cbn [String.length]. now rewrite IH.
Qed.

Lemma substring_append_l s1 s2 :
  String.substring 0 (String.length s1) (s1 +:+ s2) = s1.
Proof.
  induction s1 as [| a s1 IH]; [now destruct s2 |].
  rewrite string_append_cons. cbn [String.length String.substring]. now rewrite IH.
Qed.

Lemma substring_append_r s1 s2 :
  String.substring (String.length s1) (String.length s2) (s1 +:+ s2) = s2.
Proof.
  induction s1 as [| a s1 IH]; [apply substring_all |].
  rewrite string_append_cons. cbn [String.length String.substring]. exact IH.
Qed.

Lemma substring_split n : forall s,
  n <= String.length s ->
  String.substring 0 n s +:+ String.substring n (String.length s - n) s = s.
Proof.
  induction n as [| n IH]; intros s Hn.
  - rewrite Nat.sub_0_r, substring_all. now destruct s.
  - destruct s as [| a s]; cbn [String.length] in *; [lia |].
    cbn [String.substring]. rewrite string_append_cons. f_equal.
    apply IH. lia.
Qed.

Lemma endsWith_split suffix s :
  IndexShorthand.endsWith suffix s = true ->
  s = IndexShorthand.dropEnd (String.length suffix) s +:+ suffix.
Proof.
  unfold IndexShorthand.endsWith, IndexShorthand.dropEnd.
  intros [Hlen Heq%String.eqb_eq]%andb_prop. apply Nat.leb_le in Hlen.
  rewrite <- (substring_split (String.length s - String.length suffix) s) at 1 by lia.
  f_equal. rewrite <- Heq at 3. f_equal. lia.
Qed.

Lemma endsWith_append suffix s : IndexShorthand.endsWith suffix (s +:+ suffix) = true.
Proof.
  unfold IndexShorthand.endsWith. rewrite string_length_append.
  apply andb_true_intro. split.
  - apply Nat.leb_le. lia.
  - apply String.eqb_eq.
    replace (String.length s + String.length suffix - String.length suffix)
      with (String.length s) by lia.
    apply substring_append_r.
Qed.

Lemma dropEnd_append suffix s :
  IndexShorthand.dropEnd (String.length suffix) (s +:+ suffix) = s.
Proof.
  unfold IndexShorthand.dropEnd. rewrite string_length_append.
  replace (String.length s + String.length suffix - String.length suffix)
    with (String.length s) by lia.
  apply substring_append_l.
Qed.

(** X16: [stripTsExtension] takes one of [.d.ts], [.ts], [.js], [.jsx], [.tsx]
    off the end of a name, or nothing: the name is the result followed by that
    extension. A name that ends in [.d.ts] loses all of it, not only [.ts]. *)
Theorem stripTsExtension_removes_one_extension s :
  (exists ext,
      ext ∈ [""; ".d.ts"; ".ts"; ".js"; ".jsx"; ".tsx"] /\
      s = IndexShorthand.stripTsExtension s +:+ ext) /\
  IndexShorthand.stripTsExtension (s +:+ ".d.ts") = s.
Proof.
  split.
  - unfold IndexShorthand.stripTsExtension.
    destruct (IndexShorthand.endsWith ".d.ts" s) eqn:H1;
      [exists ".d.ts"; split; [set_solver | exact (endsWith_split _ _ H1)] |].
    destruct (IndexShorthand.endsWith ".ts" s) eqn:H2;
      [exists ".ts"; split; [set_solver | exact (endsWith_split _ _ H2)] |].
    destruct (IndexShorthand.endsWith ".js" s) eqn:H3;
      [exists ".js"; split; [set_solver | exact (endsWith_split _ _ H3)] |].
    destruct (IndexShorthand.endsWith ".jsx" s) eqn:H4;
      [exists ".jsx"; split; [set_solver | exact (endsWith_split _ _ H4)] |].
    destruct (IndexShorthand.endsWith ".tsx" s) eqn:H5;
      [exists ".tsx"; split; [set_solver | exact (endsWith_split _ _ H5)] |].
    exists "". split; [set_solver |].
    clear. induction s as [| a s IH]; [reflexivity |].
    rewrite string_append_cons. now f_equal.
  - unfold IndexShorthand.stripTsExtension. rewrite (endsWith_append ".d.ts" s).
    exact (dropEnd_append ".d.ts" s).
Qed.

Lemma lastIndexOf_segment dir segment :
  IndexShorthand.lastIndexOf IndexShorthand.slash segment = (-1)%Z ->
  IndexShorthand.lastIndexOf IndexShorthand.slash
    (dir +:+ String IndexShorthand.slash segment)
  = Z.of_nat (String.length dir).
Proof.
  intros Hseg. induction dir as [| a dir IH].
  - change ("" +:+ String IndexShorthand.slash segment)
      with (String IndexShorthand.slash segment).
    cbn [IndexShorthand.lastIndexOf String.length]. rewrite Hseg.
    change (0 <=? -1)%Z with false. cbv iota. now rewrite Ascii.eqb_refl.
  - rewrite string_append_cons. cbn [IndexShorthand.lastIndexOf String.length].
    rewrite IH. destruct (Z.leb_spec 0 (Z.of_nat (String.length dir))); lia.
Qed.

Lemma substr_segment dir segment :
  IndexShorthand.lastIndexOf IndexShorthand.slash segment = (-1)%Z ->
  IndexShorthand.substr
    (IndexShorthand.lastIndexOf IndexShorthand.slash
       (dir +:+ String IndexShorthand.slash segment))
    (dir +:+ String IndexShorthand.slash segment)
  = String IndexShorthand.slash segment.
Proof.
  intros Hseg. rewrite (lastIndexOf_segment _ _ Hseg). unfold IndexShorthand.substr.
  destruct (Z.ltb_spec (Z.of_nat (String.length dir)) 0); [lia |].
  rewrite Nat2Z.id, string_length_append.
  replace (String.length dir + String.length (String IndexShorthand.slash segment)
           - String.length dir)
    with (String.length (String IndexShorthand.slash segment)) by lia.
  apply substring_append_r.
Qed.

(** X17: [resolveIndexShorthand] returns the import as it is or a path that
    begins with [./]; it returns the import as it is when the module is not
    resolved, and when the resolved file lies under [node_modules]. *)
Theorem resolveIndexShorthand_result resolveModuleName pathRelative pathDirname pathSep
    fileName imported :
  (IndexShorthand.resolveIndexShorthand resolveModuleName pathRelative pathDirname pathSep
     fileName imported = imported \/
   exists rest,
     IndexShorthand.resolveIndexShorthand resolveModuleName pathRelative pathDirname
       pathSep fileName imported = "./" +:+ rest) /\
  (resolveModuleName imported fileName = None ->
   IndexShorthand.resolveIndexShorthand resolveModuleName pathRelative pathDirname pathSep
     fileName imported = imported) /\
  (forall resolved,
      resolveModuleName imported fileName = Some resolved ->
      IndexShorthand.includes "node_modules" (IndexShorthand.stripTsExtension resolved)
      = true ->
      IndexShorthand.resolveIndexShorthand resolveModuleName pathRelative pathDirname
        pathSep fileName imported = imported).
Proof.
  unfold IndexShorthand.resolveIndexShorthand. split; [| split].
  - destruct (resolveModuleName imported fileName); [| now left].
    destruct (_ && _); [right; eauto | now left].
  - now intros ->.
  - intros resolved -> Hin. now rewrite Hin.
Qed.

Lemma resolveIndexShorthand_result_witness :
  IndexShorthand.resolveIndexShorthand (fun _ _ => None) (fun _ to => to) (fun f => f) "/"
    "/abs/f.ts" "./pkg"
  = "./pkg".
Proof.
  apply (resolveIndexShorthand_result (fun _ _ => None) (fun _ to => to) (fun f => f) "/"
           "/abs/f.ts" "./pkg").
  reflexivity.
Defined.

(** X18: an import that already names the resolved file is left as it is: when
    the import and the resolved file name, both without their extension, end in
    the same last path segment after a slash. *)
Theorem resolveIndexShorthand_same_file resolveModuleName pathRelative pathDirname
    pathSep fileName imported resolved dir dir' segment :
  resolveModuleName imported fileName = Some resolved ->
  IndexShorthand.lastIndexOf IndexShorthand.slash segment = (-1)%Z ->
  IndexShorthand.stripTsExtension imported = dir +:+ String IndexShorthand.slash segment ->
  IndexShorthand.stripTsExtension resolved = dir' +:+ String IndexShorthand.slash segment ->
  IndexShorthand.resolveIndexShorthand resolveModuleName pathRelative pathDirname pathSep
    fileName imported = imported.
Proof.
  intros Hres Hseg Hreq Hfile. unfold IndexShorthand.resolveIndexShorthand.
  rewrite Hres, Hreq, Hfile, !substr_segment by exact Hseg.
  rewrite String.eqb_refl. now rewrite andb_false_r.
Qed.

Lemma resolveIndexShorthand_same_file_witness :
  IndexShorthand.resolveIndexShorthand (fun _ _ => Some "/abs/pkg/foo.d.ts")
    (fun _ to => to) (fun f => f) "/" "/abs/f.ts" "./pkg/foo"
  = "./pkg/foo".
Proof.
  apply (resolveIndexShorthand_same_file (fun _ _ => Some "/abs/pkg/foo.d.ts")
           (fun _ to => to) (fun f => f) "/" "/abs/f.ts" "./pkg/foo"
           "/abs/pkg/foo.d.ts" "./pkg" "/abs/pkg" "foo");
    reflexivity.
Defined.

(** X19: an import that is no goog: import and that the compiler does not
    resolve is named by [pathToModuleName] on the import as written, with the
    file name as context, whether or not [convertIndexImportShorthand] is
    set. *)
Theorem unresolved_import_keeps_its_path host resolveModuleName pathRelative
    pathDirname pathSep sf tsImport :
  String.prefix "goog:" tsImport = false ->
  resolveModuleName tsImport (fileName sf) = None ->
  importPathToGoogNamespace host
    (IndexShorthand.resolveIndexShorthand resolveModuleName pathRelative pathDirname
       pathSep)
    sf tsImport
  = StringLiteral (pathToModuleName host (fileName sf) tsImport) true.
Proof.
  intros Hgoog Hres.
  unfold importPathToGoogNamespace, extractGoogNamespaceImport,
    IndexShorthand.resolveIndexShorthand.
  rewrite Hgoog, Hres. now destruct (convertIndexImportShorthand host).
Qed.

Lemma unresolved_import_keeps_its_path_witness :
  importPathToGoogNamespace
    {| pathToModuleName := fun _ importPath => importPath;
       fileNameToModuleId := fun f => f;
       isJsTranspilation := false;
       es5Mode := true;
       convertIndexImportShorthand := true |}
    (IndexShorthand.resolveIndexShorthand (fun _ _ => None) (fun _ to => to)
       (fun f => f) "/")
    (Samples.unit []) "./pkg"
  = StringLiteral "./pkg" true.
Proof.
  exact (unresolved_import_keeps_its_path
           {| pathToModuleName := fun _ importPath => importPath;
              fileNameToModuleId := fun f => f;
              isJsTranspilation := false;
              es5Mode := true;
              convertIndexImportShorthand := true |}
           (fun _ _ => None) (fun _ to => to) (fun f => f) "/" (Samples.unit []) "./pkg"
           eq_refl eq_refl).
Defined.
